(** * The adaptive image compressor of [src/services/imageService.ts]

    [compressImage file minSizeKB maxSizeKB] reads a file, decodes it, draws
    it on a canvas no larger than 1024 x 1024 and re-encodes the canvas as
    JPEG at qualities 0.9, 0.8, ... until the blob is not larger than
    [maxSizeKB], giving up after 10 encodings.

    Conventions of the embedding.
    - A JavaScript [number] is an exact rational ([Q]); the rounding of
      binary64 is not part of the model.  [Binary64] at the end of the
      definitions evaluates the quality sequence in binary64 as well, and
      [compressImage64] is the search loop with the quality in binary64:
      what is stated of the values of the qualities is stated of it.
    - The browser (FileReader, Image, canvas, the JPEG encoder,
      Number-to-string conversion) is a record of functions, [Runtime].
    - The promise is the value it settles with, [Resolved] or [Rejected].
    - Next to the settled promise every function returns the list of
      qualities it handed to [canvas.toBlob], in call order. *)

From Stdlib Require Import Bool List String ZArith NArith QArith Qround Lia.
From Stdlib Require Import DecimalString.
From Stdlib Require Import Ascii.
From Stdlib Require Import PrimFloat.
Import ListNotations.

Open Scope Q_scope.

(** ** JavaScript numbers and their comparisons *)

(** [x > y] and [x < y] on numbers, as booleans. *)
Definition gt (x y : Q) : bool := negb (Qle_bool x y).
Definition lt (x y : Q) : bool := gt y x.

(** ** Values of the browser *)

Definition File := list Byte.byte.

(** What an [onerror] handler receives. *)
Definition Event := string.

(** A decoded [Image]: its source and its pixel dimensions. *)
Record Image := mkImage {
  img_src : string;
  img_width : N;
  img_height : N
}.

(** A [Blob], as far as this code looks at it: [blob.size] in bytes, and the
    string a FileReader gives for it with [readAsDataURL]. *)
Record Blob := mkBlob {
  blob_size : N;
  blob_dataURL : string
}.

(** The canvas after [canvas.width = width; canvas.height = height;
    ctx.drawImage(img, 0, 0, width, height)].  The width and height of a
    canvas are integers (the assignment truncates); [drawImage] receives the
    numbers as they were computed. *)
Record Canvas := mkCanvas {
  canvas_width : Z;
  canvas_height : Z;
  drawn_image : Image;
  drawn_width : Q;
  drawn_height : Q
}.

Record Runtime := mkRuntime {
  (** [reader.readAsDataURL(file)]: [reader.onerror] or [reader.onload]. *)
  readAsDataURL : File -> Event + string;
  (** [img.src = ...]: [img.onerror] or [img.onload]. *)
  loadImage : string -> Event + Image;
  (** whether [canvas.getContext('2d')] is a context *)
  getContext2d : bool;
  (** [canvas.toBlob(callback, 'image/jpeg', quality)]: the blob the callback
      receives, [None] for [null].  One invocation never encodes twice at
      the same quality, so a function of the quality describes any sequence
      of answers of the encoder. *)
  toBlob : Canvas -> Q -> option Blob;
  (** a number inside a template literal *)
  numberToString : Q -> string
}.

(** What the promise is rejected with: [new Error(message)], or the event of
    an [onerror] handler. *)
Inductive Reason :=
| Error (message : string)
| ErrorEvent (ev : Event).

Inductive Promise :=
| Resolved (value : string)
| Rejected (reason : Reason).

(** ** The resize step *)

Definition MAX_WIDTH : Q := 1024.
Definition MAX_HEIGHT : Q := 1024.

Definition number_of_N (n : N) : Q := inject_Z (Z.of_N n).

(** The values of the variables [width] and [height] after the [if]. *)
Definition resize (img : Image) : Q * Q :=
  let width := number_of_N (img_width img) in
  let height := number_of_N (img_height img) in
  if gt width height then
    if gt width MAX_WIDTH then (MAX_WIDTH, height * (MAX_WIDTH / width))
    else (width, height)
  else
    if gt height MAX_HEIGHT then (width * (MAX_HEIGHT / height), MAX_HEIGHT)
    else (width, height).

Definition draw (img : Image) : Canvas :=
  let (width, height) := resize img in
  mkCanvas (Qfloor width) (Qfloor height) img width height.

(** ** The search loop *)

Definition sizeKB_of (blob : Blob) : Q := number_of_N (blob_size blob) / 1024.

Definition unsatisfiable_message (rt : Runtime) (minSizeKB maxSizeKB : Q) : string :=
  ("Could not compress image to be between " ++ numberToString rt minSizeKB
   ++ "KB and " ++ numberToString rt maxSizeKB
   ++ "KB. Please try a different image.")%string.

Section TryCompress.

(** The variables the closure [tryCompress] captures. *)
Variable rt : Runtime.
Variable canvas : Canvas.
Variables minSizeKB maxSizeKB : Q.

(** [attempts] starts at 10 and is decremented by one; [attempts <= 0] is
    the case [O]. *)
Fixpoint tryCompress (quality : Q) (attempts : nat) : Promise * list Q :=
  match attempts with
  | O => (Rejected (Error (unsatisfiable_message rt minSizeKB maxSizeKB)), [])
  | S attempts' =>
      match toBlob rt canvas quality with
      | None => (Rejected (Error "Canvas to Blob conversion failed."), [quality])
      | Some blob =>
          let sizeKB := sizeKB_of blob in
          if gt sizeKB maxSizeKB then
            let (settled, calls) := tryCompress (quality - 0.1) attempts' in
            (settled, quality :: calls)
          else if lt sizeKB minSizeKB then
            (Resolved (blob_dataURL blob), [quality])
          else
            (Resolved (blob_dataURL blob), [quality])
      end
  end.

End TryCompress.

Definition compressImage (rt : Runtime) (file : File) (minSizeKB maxSizeKB : Q)
  : Promise * list Q :=
  match readAsDataURL rt file with
  | inl error => (Rejected (ErrorEvent error), [])
  | inr url =>
      match loadImage rt url with
      | inl error => (Rejected (ErrorEvent error), [])
      | inr img =>
          if negb (getContext2d rt) then
            (Rejected (Error "Could not get canvas context"), [])
          else
            tryCompress rt (draw img) minSizeKB maxSizeKB 0.9 10
      end
  end.

(** ** Vocabulary of the statements *)

(** The quality of encode attempt number [k], counted from 0. *)
Fixpoint quality_at (k : nat) : Q :=
  match k with
  | O => 0.9
  | S k' => quality_at k' - 0.1
  end.

(** [file] is an image: it is read, it decodes to [img], and the canvas has
    a 2d context. *)
Definition decodes_to (rt : Runtime) (file : File) (img : Image) : Prop :=
  exists url, readAsDataURL rt file = inr url
              /\ loadImage rt url = inr img
              /\ getContext2d rt = true.

(** [file] does not decode: the reader fails, or the image fails to load,
    with the event [ev]. *)
Definition decode_fails (rt : Runtime) (file : File) (ev : Event) : Prop :=
  readAsDataURL rt file = inl ev
  \/ exists url, readAsDataURL rt file = inr url /\ loadImage rt url = inl ev.

(** Encode attempt [k] on [canvas] gives [blob]. *)
Definition yields (rt : Runtime) (canvas : Canvas) (k : nat) (blob : Blob) : Prop :=
  toBlob rt canvas (quality_at k) = Some blob.

(** Encode attempt [k] gives a blob larger than [maxSizeKB]: the attempt
    after which the loop retries. *)
Definition oversized (rt : Runtime) (canvas : Canvas) (maxSizeKB : Q) (k : nat) : Prop :=
  exists blob, yields rt canvas k blob /\ maxSizeKB < sizeKB_of blob.

(** The three ways a call [tryCompress (quality_at j) attempts] ends, with
    the qualities it encoded at: the budget runs out after [attempts]
    oversized blobs, or attempt [k] is accepted, or the encoder gives no blob
    at attempt [k]; in the last two cases after [k] oversized blobs. *)
Inductive Run (rt : Runtime) (canvas : Canvas) (minSizeKB maxSizeKB : Q)
  (j attempts : nat) : Promise * list Q -> Prop :=
| Run_exhausted :
    (forall i, (i < attempts)%nat -> oversized rt canvas maxSizeKB (j + i)) ->
    Run rt canvas minSizeKB maxSizeKB j attempts
      (Rejected (Error (unsatisfiable_message rt minSizeKB maxSizeKB)),
       map quality_at (seq j attempts))
| Run_accepted (k : nat) (blob : Blob) :
    (k < attempts)%nat ->
    (forall i, (i < k)%nat -> oversized rt canvas maxSizeKB (j + i)) ->
    yields rt canvas (j + k) blob ->
    sizeKB_of blob <= maxSizeKB ->
    Run rt canvas minSizeKB maxSizeKB j attempts
      (Resolved (blob_dataURL blob), map quality_at (seq j (S k)))
| Run_encoder_failed (k : nat) :
    (k < attempts)%nat ->
    (forall i, (i < k)%nat -> oversized rt canvas maxSizeKB (j + i)) ->
    toBlob rt canvas (quality_at (j + k)) = None ->
    Run rt canvas minSizeKB maxSizeKB j attempts
      (Rejected (Error "Canvas to Blob conversion failed."),
       map quality_at (seq j (S k))).

(** [s] occurs in [t]. *)
Definition occurs_in (s t : string) : Prop :=
  exists before after, t = (before ++ s ++ after)%string.

(** A strictly decreasing list of numbers. *)
Fixpoint decreasing (l : list Q) : Prop :=
  match l with
  | [] => True
  | q :: rest =>
      match rest with
      | [] => True
      | q' :: _ => q' < q
      end /\ decreasing rest
  end.

(** ** Runtimes to evaluate the functions on *)

(** Decimal digits of the integer part: what a template literal shows for
    an integral number. *)
Definition show_integer (q : Q) : string :=
  NilZero.string_of_int (Z.to_int (Qfloor q)).

Definition jpeg (bytes : N) : Blob := mkBlob bytes "data:image/jpeg;base64,/9j/4AAQSkZJRg==".

Definition photo : Image := mkImage "data:image/png;base64,iVBORw0KGgo=" 2000 1000.

(** A 500 x 800 image: higher than wide, and inside the 1024 x 1024 box. *)
Definition portrait : Image := mkImage "data:image/png;base64,iVBORw0KGgo=" 500 800.

Definition a_file : File := [Byte.x89; Byte.x50; Byte.x4e; Byte.x47].

(** A browser where every file is [photo] and the encoder is [encode]. *)
Definition runtime_with (encode : Q -> option Blob) : Runtime :=
  mkRuntime (fun _ => inr (img_src photo)) (fun _ => inr photo) true
            (fun _ quality => encode quality) show_integer.

(** A browser where no file decodes: every image load ends in [onerror]. *)
Definition runtime_without_decoder : Runtime :=
  mkRuntime (fun _ => inr "data:text/plain;base64,aGVsbG8="%string) (fun _ => inl "error"%string)
            true (fun _ _ => Some (jpeg 1024)) show_integer.

(** An encoder whose output grows with the quality: 100 KB times quality. *)
Definition proportional (quality : Q) : option Blob :=
  Some (jpeg (Z.to_N (Qfloor (quality * 102400)))).

(** Encoders whose output does not depend on the quality. *)
Definition constant (bytes : N) (quality : Q) : option Blob := Some (jpeg bytes).

(** An encoder that gives no blob at quality 0.9 and 10 KB below it. *)
Definition fails_first (quality : Q) : option Blob :=
  if Qle_bool 0.9 quality then None else Some (jpeg 10240).

(** ** The arithmetic of the source in binary64 *)

Module Binary64.
Local Open Scope float_scope.

(** The literals [0.9] and [0.1]: the doubles nearest to 9/10 and 1/10. *)
Definition start : float := 9 / 10.
Definition step : float := 1 / 10.

Fixpoint quality_at (k : nat) : float :=
  match k with
  | O => start
  | S k' => quality_at k' - step
  end.

Definition in_unit_interval (q : float) : bool := (0 <=? q) && (q <=? 1).

(** [height *= MAX_WIDTH / width] for a 2000 x 1000 image. *)
Definition height_of_2000x1000 : float := 1000 * (1024 / 2000).
End Binary64.

(** ** The search loop with the quality in binary64

    [tryCompress] above computes [quality - 0.1] exactly.  The source
    subtracts doubles: [tryCompress64] is the same loop with the quality as
    the binary64 number the code hands to [canvas.toBlob], and the encoder
    as a function of that number.  Sizes and bounds stay exact. *)

Section TryCompress64.

Variable rt : Runtime.
Variable toBlob64 : Canvas -> float -> option Blob.
Variable canvas : Canvas.
Variables minSizeKB maxSizeKB : Q.

Fixpoint tryCompress64 (quality : float) (attempts : nat) : Promise * list float :=
  match attempts with
  | O => (Rejected (Error (unsatisfiable_message rt minSizeKB maxSizeKB)), [])
  | S attempts' =>
      match toBlob64 canvas quality with
      | None => (Rejected (Error "Canvas to Blob conversion failed."), [quality])
      | Some blob =>
          let sizeKB := sizeKB_of blob in
          if gt sizeKB maxSizeKB then
            let (settled, calls) :=
              tryCompress64 (PrimFloat.sub quality Binary64.step) attempts' in
            (settled, quality :: calls)
          else if lt sizeKB minSizeKB then
            (Resolved (blob_dataURL blob), [quality])
          else
            (Resolved (blob_dataURL blob), [quality])
      end
  end.

End TryCompress64.

Definition compressImage64 (rt : Runtime) (toBlob64 : Canvas -> float -> option Blob)
  (file : File) (minSizeKB maxSizeKB : Q) : Promise * list float :=
  match readAsDataURL rt file with
  | inl error => (Rejected (ErrorEvent error), [])
  | inr url =>
      match loadImage rt url with
      | inl error => (Rejected (ErrorEvent error), [])
      | inr img =>
          if negb (getContext2d rt) then
            (Rejected (Error "Could not get canvas context"), [])
          else
            tryCompress64 rt toBlob64 (draw img) minSizeKB maxSizeKB Binary64.start 10
      end
  end.

(** The doubles nearest to 0.9, 0.8, ..., 0.1, 0. *)
Definition nearest_tenths : list float :=
  map (fun d => PrimFloat.div d 10%float)
      [9; 8; 7; 6; 5; 4; 3; 2; 1; 0]%float.

(** An encoder on binary64 qualities that always gives 1 MB. *)
Definition always_1MB (canvas : Canvas) (quality : float) : option Blob :=
  Some (jpeg 1048576).

(** A 2048 x 1 image: more than 1024 times wider than high. *)
Definition sliver : Image := mkImage "data:image/png;base64,iVBORw0KGgo=" 2048 1.

(** * The student form ([StudentForm], after [compressImage] in the same
    file), the marksheet and the teacher dashboard *)

(** ** Students ([types.ts]) *)

Inductive Subject :=
| hindi | english | mathematics | science | socialScience | sanskrit.

Definition SUBJECTS : list Subject :=
  [hindi; english; mathematics; science; socialScience; sanskrit].

Record Marks := mkMarks {
  m_hindi : Q;
  m_english : Q;
  m_mathematics : Q;
  m_science : Q;
  m_socialScience : Q;
  m_sanskrit : Q
}.

Record Student := mkStudent {
  rollNumber : string;
  studentName : string;
  fatherName : string;
  dob : string;
  studentImage : string;
  marks : Marks
}.

(** [marks[subject]] *)
Definition mark_of (m : Marks) (subject : Subject) : Q :=
  match subject with
  | hindi => m_hindi m
  | english => m_english m
  | mathematics => m_mathematics m
  | science => m_science m
  | socialScience => m_socialScience m
  | sanskrit => m_sanskrit m
  end.

(** [{ ...marks, [subject]: mark }] *)
Definition with_mark (m : Marks) (subject : Subject) (mark : Q) : Marks :=
  match subject with
  | hindi => mkMarks mark (m_english m) (m_mathematics m) (m_science m) (m_socialScience m) (m_sanskrit m)
  | english => mkMarks (m_hindi m) mark (m_mathematics m) (m_science m) (m_socialScience m) (m_sanskrit m)
  | mathematics => mkMarks (m_hindi m) (m_english m) mark (m_science m) (m_socialScience m) (m_sanskrit m)
  | science => mkMarks (m_hindi m) (m_english m) (m_mathematics m) mark (m_socialScience m) (m_sanskrit m)
  | socialScience => mkMarks (m_hindi m) (m_english m) (m_mathematics m) (m_science m) mark (m_sanskrit m)
  | sanskrit => mkMarks (m_hindi m) (m_english m) (m_mathematics m) (m_science m) (m_socialScience m) mark
  end.

(** [{ ...student, marks }] and [{ ...student, studentImage }] *)
Definition with_marks (student : Student) (m : Marks) : Student :=
  mkStudent (rollNumber student) (studentName student) (fatherName student)
            (dob student) (studentImage student) m.

Definition with_studentImage (student : Student) (image : string) : Student :=
  mkStudent (rollNumber student) (studentName student) (fatherName student)
            (dob student) image (marks student).

Definition initialStudentState : Student :=
  mkStudent "" "" "" "" "" (mkMarks 0 0 0 0 0 0).

(** ** The handlers of [StudentForm] *)

(** [mark = parseInt(value, 10)] clamped: [NaN] and negative numbers become
    0, numbers above 100 become 100.  [parseInt] is the parameter
    [parseInt10], with [None] for [NaN]. *)
Definition clamped_mark (parseInt10 : string -> option Z) (value : string) : Z :=
  let mark := match parseInt10 value with Some n => n | None => 0%Z end in
  let mark := if (mark <? 0)%Z then 0%Z else mark in
  if (mark >? 100)%Z then 100%Z else mark.

(** The update [handleMarkChange] passes to [setStudent], for the input
    named [name] holding [value]. *)
Definition handleMarkChange (parseInt10 : string -> option Z)
  (name : Subject) (value : string) (prev : Student) : Student :=
  with_marks prev (with_mark (marks prev) name (inject_Z (clamped_mark parseInt10 value))).

(** [!s] for a string: it is empty. *)
Definition is_empty (s : string) : bool :=
  match s with
  | EmptyString => true
  | String _ _ => false
  end.

(** [list.includes(s)] for strings. *)
Definition includes (l : list string) (s : string) : bool :=
  existsb (String.eqb s) l.

(** What [handleSubmit] does after [setError(null)]: it shows an error, or
    calls [onSave(student)]. *)
Inductive Submission :=
| ShowError (message : string)
| Save (student : Student).

Definition handleSubmit (studentToEdit : option Student)
  (existingRollNumbers : list string) (student : Student) : Submission :=
  if match studentToEdit with None => true | Some _ => false end
     && includes existingRollNumbers (rollNumber student)
  then ShowError "This Roll Number already exists. Please use a unique one."
  else if is_empty (rollNumber student) || is_empty (studentName student)
          || is_empty (fatherName student) || is_empty (dob student)
  then ShowError "Please fill in all student details."
  else Save student.

(** The state of the form. *)
Record FormState := mkFormState {
  form_student : Student;
  imagePreview : option string;
  form_error : option string;
  isCompressing : bool
}.

(** [err.message]: the message of an [Error]; the event of an [onerror]
    handler has no such property. *)
Definition message_of (err : Reason) : option string :=
  match err with
  | Error message => Some message
  | ErrorEvent _ => None
  end.

(** [s || null] for a string. *)
Definition or_null (s : string) : option string :=
  if is_empty s then None else Some s.

(** The state after [handleImageChange] has run to its end, for the file
    picked ([None] when no file was picked), when nothing else changes the
    form in between. *)
Definition handleImageChange (rt : Runtime) (picked : option File) (st : FormState)
  : FormState :=
  match picked with
  | None => st
  | Some file =>
      match fst (compressImage rt file 20 50) with
      | Resolved compressedBase64 =>
          mkFormState (with_studentImage (form_student st) compressedBase64)
                      (Some compressedBase64) None false
      | Rejected err =>
          mkFormState (form_student st)
                      (or_null (studentImage (form_student st)))
                      (message_of err) false
      end
  end.

(** ** The marksheet *)

(** [x >= y] on numbers. *)
Definition ge (x y : Q) : bool := Qle_bool y x.

Definition calculateGrade (percentage : Q) : string :=
  if ge percentage 90 then "A+ (Outstanding)"
  else if ge percentage 80 then "A (Excellent)"
  else if ge percentage 70 then "B (Very Good)"
  else if ge percentage 60 then "C (Good)"
  else if ge percentage 50 then "D (Satisfactory)"
  else if ge percentage 33 then "E (Sufficient)"
  else "F (Fail)".

(** [x || 0] for a number. *)
Definition or_zero (x : Q) : Q := if Qeq_bool x 0 then 0 else x.

(** [parseFloat(x.toFixed(2))]: the multiple of 1/100 nearest to [x], the
    one further from zero when two are equally near. *)
Definition round_half_up (x : Q) : Q := inject_Z (Qfloor (x * 100 + (1 # 2))) / 100.

Definition toFixed2 (x : Q) : Q :=
  if lt x 0 then - round_half_up (- x) else round_half_up x.

Definition totalMarks (student : Student) : Q :=
  fold_left (fun acc subject => acc + or_zero (mark_of (marks student) subject)) SUBJECTS 0.

Definition maxMarks : Q := inject_Z (Z.of_nat (List.length SUBJECTS)) * 100.

(** The number that [percentage], a string, is parsed to. *)
Definition percentage (student : Student) : Q :=
  toFixed2 (totalMarks student / maxMarks * 100).

Definition grade (student : Student) : string := calculateGrade (percentage student).

Definition isPass (student : Student) : bool := ge (percentage student) 33.

(** The place of a grade among the seven, from [F] up. *)
Definition grade_rank (g : string) : nat :=
  if String.eqb g "A+ (Outstanding)" then 6
  else if String.eqb g "A (Excellent)" then 5
  else if String.eqb g "B (Very Good)" then 4
  else if String.eqb g "C (Good)" then 3
  else if String.eqb g "D (Satisfactory)" then 2
  else if String.eqb g "E (Sufficient)" then 1
  else 0.

(** ** The teacher dashboard *)

(** A [Record<string, Student>]: the own properties of the object, each
    key once. *)
Definition Students := list (string * Student).

Fixpoint lookup (key : string) (students : Students) : option Student :=
  match students with
  | [] => None
  | (k, v) :: rest => if String.eqb key k then Some v else lookup key rest
  end.

(** [{ ...students, [key]: student }] *)
Fixpoint assign (key : string) (student : Student) (students : Students) : Students :=
  match students with
  | [] => [(key, student)]
  | (k, v) :: rest =>
      if String.eqb key k then (k, student) :: rest
      else (k, v) :: assign key student rest
  end.

(** [delete students[key]] *)
Fixpoint delete_key (key : string) (students : Students) : Students :=
  match students with
  | [] => []
  | (k, v) :: rest =>
      if String.eqb key k then delete_key key rest
      else (k, v) :: delete_key key rest
  end.

(** [Object.keys(students)] *)
Definition keys (students : Students) : list string := map fst students.

(** [rn !== studentToEdit?.rollNumber] *)
Definition differs_from_edited (studentToEdit : option Student) (rn : string) : bool :=
  match studentToEdit with
  | None => true
  | Some edited => negb (String.eqb rn (rollNumber edited))
  end.

(** The [existingRollNumbers] the dashboard hands to the form. *)
Definition existingRollNumbers (students : Students) (studentToEdit : option Student)
  : list string :=
  filter (differs_from_edited studentToEdit) (keys students).

Record AuditLogEntry := mkAuditLogEntry {
  timestamp : string;
  user : string;
  action : string
}.

(** [addAuditLog(action)] of [App]: [now] is [new Date().toISOString()],
    [username] is [loggedInUser?.username]. *)
Definition addAuditLog (now : string) (username : option string) (action : string)
  (prevLog : list AuditLogEntry) : list AuditLogEntry :=
  let user := match username with
              | Some name => if is_empty name then "System"%string else name
              | None => "System"%string
              end in
  mkAuditLogEntry now user action :: prevLog.

(** The state the dashboard's handlers change. *)
Record Dashboard := mkDashboard {
  students : Students;
  auditLog : list AuditLogEntry;
  isFormOpen : bool;
  studentToEdit : option Student
}.

Definition handleSaveStudent (now : string) (username : option string)
  (student : Student) (d : Dashboard) : Dashboard :=
  let action := match studentToEdit d with
                | Some _ => ("Updated student: " ++ rollNumber student)%string
                | None => ("Added new student: " ++ rollNumber student)%string
                end in
  mkDashboard (assign (rollNumber student) student (students d))
              (addAuditLog now username action (auditLog d))
              false None.

(** [confirmed] is the answer of [window.confirm]. *)
Definition handleDeleteStudent (now : string) (username : option string)
  (confirmed : bool) (roll : string) (d : Dashboard) : Dashboard :=
  if confirmed then
    mkDashboard (delete_key roll (students d))
                (addAuditLog now username ("Deleted student record: " ++ roll)%string
                             (auditLog d))
                (isFormOpen d) (studentToEdit d)
  else d.

(** The form's [onSave] is [handleSaveStudent]: submitting the form, as the
    dashboard renders it. *)
Definition submit_form (now : string) (username : option string)
  (student : Student) (d : Dashboard) : string + Dashboard :=
  match handleSubmit (studentToEdit d)
                     (existingRollNumbers (students d) (studentToEdit d)) student with
  | ShowError message => inl message
  | Save saved => inr (handleSaveStudent now username saved d)
  end.

(** ** The captcha of the search page *)

(** [Math.floor(random * 10) + 1], for [random] a result of
    [Math.random()]. *)
Definition captcha_number (random : Q) : Z := (Qfloor (random * 10) + 1)%Z.

Record Captcha := mkCaptcha {
  num1 : Z;
  num2 : Z;
  answer : Z
}.

Definition generateCaptcha (random1 random2 : Q) : Captcha :=
  let num1 := captcha_number random1 in
  let num2 := captcha_number random2 in
  mkCaptcha num1 num2 (num1 + num2)%Z.

(** ** Values to evaluate the handlers on *)

(** [parseInt] on decimal digits with an optional sign; [None] when no
    digit comes first. *)
Fixpoint digits_value (acc : Z) (s : string) : Z :=
  match s with
  | EmptyString => acc
  | String c rest =>
      let n := Ascii.nat_of_ascii c in
      if (48 <=? n)%nat && (n <=? 57)%nat
      then digits_value (acc * 10 + Z.of_nat (n - 48)) rest
      else acc
  end.

Definition starts_with_digit (s : string) : bool :=
  match s with
  | EmptyString => false
  | String c _ =>
      let n := Ascii.nat_of_ascii c in (48 <=? n)%nat && (n <=? 57)%nat
  end.

Definition parse_decimal (s : string) : option Z :=
  match s with
  | String "-"%char rest =>
      if starts_with_digit rest then Some (- digits_value 0 rest)%Z else None
  | String "+"%char rest =>
      if starts_with_digit rest then Some (digits_value 0 rest) else None
  | _ => if starts_with_digit s then Some (digits_value 0 s) else None
  end.

Definition asha : Student :=
  mkStudent "100101" "Asha Verma" "Rakesh Verma" "2010-04-12" ""
            (mkMarks 78 82 91 67 74 88).

Definition ravi : Student :=
  mkStudent "100102" "Ravi Kumar" "Suresh Kumar" "2010-09-30" ""
            (mkMarks 45 52 38 41 60 55).

Definition class_of_two : Students := [("100101"%string, asha); ("100102"%string, ravi)].

(** * Properties *)

(** ** Comparisons *)

Lemma gt_true (x y : Q) : gt x y = true <-> y < x.
Proof.
  unfold gt. rewrite negb_true_iff. split; intro H.
  - apply Qnot_le_lt. intro Hle. apply Qle_bool_iff in Hle. congruence.
  - destruct (Qle_bool x y) eqn:E; [|reflexivity].
    apply Qle_bool_iff in E. exfalso. exact (Qlt_not_le _ _ H E).
Qed.

Lemma gt_false (x y : Q) : gt x y = false <-> x <= y.
Proof.
  unfold gt. rewrite negb_false_iff. apply Qle_bool_iff.
Qed.

Lemma lt_true (x y : Q) : lt x y = true <-> x < y.
Proof. unfold lt. apply gt_true. Qed.

Lemma lt_false (x y : Q) : lt x y = false <-> y <= x.
Proof. unfold lt. apply gt_false. Qed.

Lemma number_of_N_nonneg (n : N) : 0 <= number_of_N n.
Proof.
  unfold number_of_N, Qle. simpl. lia.
Qed.

Lemma number_of_N_le (n m : N) : (n <= m)%N -> number_of_N n <= number_of_N m.
Proof.
  intro H. unfold number_of_N. rewrite <- Zle_Qle. lia.
Qed.

(** ** The quality sequence *)

Lemma quality_at_closed_form (k : nat) :
  quality_at k == 0.9 - inject_Z (Z.of_nat k) * 0.1.
Proof.
  induction k as [|k IH].
  - reflexivity.
  - cbn [quality_at]. rewrite IH. rewrite Nat2Z.inj_succ. unfold Z.succ.
    rewrite inject_Z_plus. ring.
Qed.

Lemma quality_at_step (k : nat) : quality_at k - quality_at (S k) == 0.1.
Proof. cbn [quality_at]. ring. Qed.

Lemma quality_at_decreases (k : nat) : quality_at (S k) < quality_at k.
Proof.
  cbn [quality_at]. rewrite <- (Qplus_0_r (quality_at k)) at 2.
  unfold Qminus. apply Qplus_lt_r. reflexivity.
Qed.

Lemma quality_at_in_range (k : nat) :
  (k < 10)%nat -> 0 <= quality_at k /\ quality_at k <= 1.
Proof.
  intro Hk.
  do 10 (destruct k as [|k]; [split; vm_compute; discriminate|]).
  lia.
Qed.

Lemma decreasing_qualities (n j : nat) : decreasing (map quality_at (seq j n)).
Proof.
  revert j. induction n as [|n IH]; intro j; [exact I|].
  cbn [seq map decreasing]. split; [|apply IH].
  destruct n as [|n]; [exact I|]. cbn [seq map]. apply quality_at_decreases.
Qed.

(** ** How a run of the search loop ends *)

Section Runs.

Variable rt : Runtime.
Variable canvas : Canvas.
Variables minSizeKB maxSizeKB : Q.

Lemma yields_functional (k : nat) (b b' : Blob) :
  yields rt canvas k b -> yields rt canvas k b' -> b = b'.
Proof. unfold yields. congruence. Qed.

Lemma oversized_not_fitting (k : nat) (b : Blob) :
  oversized rt canvas maxSizeKB k -> yields rt canvas k b ->
  sizeKB_of b <= maxSizeKB -> False.
Proof.
  intros [b' [Hy Hlt]] Hb Hle.
  rewrite (yields_functional k b b' Hb Hy) in Hle.
  exact (Qlt_not_le _ _ Hlt Hle).
Qed.

Lemma oversized_not_null (k : nat) :
  oversized rt canvas maxSizeKB k -> toBlob rt canvas (quality_at k) <> None.
Proof. intros [b [Hy _]]. unfold yields in Hy. congruence. Qed.

Lemma oversized_shift (j : nat) (blob : Blob) (n : nat) :
  yields rt canvas j blob -> maxSizeKB < sizeKB_of blob ->
  (forall i, (i < n)%nat -> oversized rt canvas maxSizeKB (S j + i)) ->
  forall i, (i < S n)%nat -> oversized rt canvas maxSizeKB (j + i).
Proof.
  intros Hy Hlt Hrest [|i] Hi.
  - rewrite Nat.add_0_r. exists blob. split; assumption.
  - rewrite Nat.add_succ_r. apply (Hrest i). lia.
Qed.

Lemma tryCompress_run (attempts j : nat) :
  Run rt canvas minSizeKB maxSizeKB j attempts
      (tryCompress rt canvas minSizeKB maxSizeKB (quality_at j) attempts).
Proof.
  revert j. induction attempts as [|attempts IH]; intro j.
  - cbn [tryCompress]. apply Run_exhausted. intros i Hi. lia.
  - cbn [tryCompress].
    destruct (toBlob rt canvas (quality_at j)) as [blob|] eqn:Hblob.
    + cbv zeta. destruct (gt (sizeKB_of blob) maxSizeKB) eqn:Hgt.
      * apply gt_true in Hgt. specialize (IH (S j)). cbn [quality_at] in IH.
        destruct (tryCompress rt canvas minSizeKB maxSizeKB (quality_at j - 0.1) attempts)
          as [settled calls].
        inversion IH as [Hall Hs | k b Hk Hall Hy Hle Hs | k Hk Hall Hnull Hs]; subst.
        -- apply (Run_exhausted rt canvas minSizeKB maxSizeKB j (S attempts)).
           apply (oversized_shift j blob attempts Hblob Hgt Hall).
        -- replace (S j + k)%nat with (j + S k)%nat in Hy by lia.
           apply (Run_accepted rt canvas minSizeKB maxSizeKB j (S attempts) (S k) b);
             [lia | apply (oversized_shift j blob k Hblob Hgt Hall) | exact Hy | exact Hle].
        -- replace (S j + k)%nat with (j + S k)%nat in Hnull by lia.
           apply (Run_encoder_failed rt canvas minSizeKB maxSizeKB j (S attempts) (S k));
             [lia | apply (oversized_shift j blob k Hblob Hgt Hall) | exact Hnull].
      * apply gt_false in Hgt.
        assert (Hacc : Run rt canvas minSizeKB maxSizeKB j (S attempts)
                         (Resolved (blob_dataURL blob), [quality_at j])).
        { apply (Run_accepted rt canvas minSizeKB maxSizeKB j (S attempts) 0 blob);
            [lia | intros i Hi; lia | rewrite Nat.add_0_r; exact Hblob | exact Hgt]. }
        destruct (lt (sizeKB_of blob) minSizeKB); exact Hacc.
    + apply (Run_encoder_failed rt canvas minSizeKB maxSizeKB j (S attempts) 0);
        [lia | intros i Hi; lia | rewrite Nat.add_0_r; exact Hblob].
Qed.

End Runs.

Lemma compressImage_decoded (rt : Runtime) (file : File) (img : Image)
  (minSizeKB maxSizeKB : Q) :
  decodes_to rt file img ->
  compressImage rt file minSizeKB maxSizeKB
  = tryCompress rt (draw img) minSizeKB maxSizeKB (quality_at 0) 10.
Proof.
  intros [url [Hread [Hload Hctx]]].
  unfold compressImage. rewrite Hread, Hload, Hctx. reflexivity.
Qed.

Lemma compressImage_run (rt : Runtime) (file : File) (img : Image)
  (minSizeKB maxSizeKB : Q) :
  decodes_to rt file img ->
  Run rt (draw img) minSizeKB maxSizeKB 0 10 (compressImage rt file minSizeKB maxSizeKB).
Proof.
  intro Hdec. rewrite (compressImage_decoded rt file img _ _ Hdec).
  apply tryCompress_run.
Qed.

(** The encoder calls of any invocation are the first [n] qualities of the
    sequence, for some [n <= 10]. *)
Lemma compressImage_calls (rt : Runtime) (file : File) (minSizeKB maxSizeKB : Q) :
  exists n, (n <= 10)%nat
            /\ snd (compressImage rt file minSizeKB maxSizeKB) = map quality_at (seq 0 n).
Proof.
  unfold compressImage.
  destruct (readAsDataURL rt file) as [ev|url]; [exists 0%nat; split; [lia|reflexivity]|].
  destruct (loadImage rt url) as [ev|img]; [exists 0%nat; split; [lia|reflexivity]|].
  destruct (getContext2d rt); cbn [negb]; [|exists 0%nat; split; [lia|reflexivity]].
  change 0.9 with (quality_at 0).
  generalize (tryCompress_run rt (draw img) minSizeKB maxSizeKB 10 0).
  generalize (tryCompress rt (draw img) minSizeKB maxSizeKB (quality_at 0) 10).
  intros r Hrun. destruct Hrun as [Hall | k b Hk Hall Hy Hle | k Hk Hall Hnull].
  - exists 10%nat. split; [lia|reflexivity].
  - exists (S k). split; [lia|reflexivity].
  - exists (S k). split; [lia|reflexivity].
Qed.

(** ** The search loop: acceptance *)

(** C1: for every input image (a file that decodes) and every window, if one
    of the first 10 qualities 0.9, 0.8, ... gives a blob of size at most
    [maxSizeKB], and that quality is reached, in that no attempt before it
    leaves the encoder without a blob, then [compressImage] resolves: some
    attempt up to that one is accepted, its measured size is at most
    [maxSizeKB], and its data URL is the value of the promise. *)
Theorem compress_succeeds_when_a_quality_fits
  (rt : Runtime) (file : File) (img : Image) (minSizeKB maxSizeKB : Q)
  (k : nat) (blob : Blob) :
  decodes_to rt file img ->
  (k < 10)%nat ->
  (forall j, (j < k)%nat -> toBlob rt (draw img) (quality_at j) <> None) ->
  yields rt (draw img) k blob ->
  sizeKB_of blob <= maxSizeKB ->
  exists k' accepted,
    (k' <= k)%nat
    /\ yields rt (draw img) k' accepted
    /\ sizeKB_of accepted <= maxSizeKB
    /\ compressImage rt file minSizeKB maxSizeKB
       = (Resolved (blob_dataURL accepted), map quality_at (seq 0 (S k'))).
Proof.
  intros Hdec Hk Hblobs Hy Hfit.
  destruct (compressImage_run rt file img minSizeKB maxSizeKB Hdec)
    as [Hall | k0 b Hk0 Hall Hy0 Hle | k0 Hk0 Hall Hnull].
  - exfalso. apply (oversized_not_fitting rt (draw img) maxSizeKB k blob); auto.
    apply (Hall k Hk).
  - destruct (le_lt_dec k0 k) as [Hle0|Hlt0].
    + exists k0, b. repeat split; assumption.
    + exfalso. apply (oversized_not_fitting rt (draw img) maxSizeKB k blob); auto.
      apply (Hall k Hlt0).
  - exfalso. cbn [Nat.add] in Hnull.
    destruct (lt_eq_lt_dec k0 k) as [[Hlt0|Heq]|Hgt0].
    + exact (Hblobs k0 Hlt0 Hnull).
    + subst k0. unfold yields in Hy. congruence.
    + apply (oversized_not_fitting rt (draw img) maxSizeKB k blob); auto.
      apply (Hall k Hgt0).
Qed.

Lemma runtime_with_decodes (encode : Q -> option Blob) :
  decodes_to (runtime_with encode) a_file photo.
Proof.
  exists (img_src photo). repeat split; reflexivity.
Defined.

Lemma compress_succeeds_when_a_quality_fits_witness :
  exists k' accepted,
    (k' <= 4)%nat
    /\ yields (runtime_with proportional) (draw photo) k' accepted
    /\ sizeKB_of accepted <= 50
    /\ compressImage (runtime_with proportional) a_file 20 50
       = (Resolved (blob_dataURL accepted), map quality_at (seq 0 (S k'))).
Proof.
  apply (compress_succeeds_when_a_quality_fits
           (runtime_with proportional) a_file photo 20 50 4 (jpeg 51200)).
  - apply runtime_with_decodes.
  - lia.
  - intros j _. discriminate.
  - reflexivity.
  - vm_compute. discriminate.
Defined.

(** C2: under the contract's precondition [minSizeKB <= maxSizeKB], when
    the first attempt (quality 0.9) gives a blob smaller than [minSizeKB],
    the promise resolves with that blob and 0.9 is the only quality encoded
    at; no attempt that was made and gave a blob smaller than [minSizeKB] is
    rejected or retried: the promise resolves with it; and the qualities
    encoded at only ever decrease. *)
Theorem undersized_attempt_is_accepted
  (rt : Runtime) (file : File) (img : Image) (minSizeKB maxSizeKB : Q) :
  decodes_to rt file img ->
  minSizeKB <= maxSizeKB ->
  (forall blob,
      yields rt (draw img) 0 blob -> sizeKB_of blob < minSizeKB ->
      compressImage rt file minSizeKB maxSizeKB = (Resolved (blob_dataURL blob), [0.9]))
  /\ (forall k blob,
         (k < List.length (snd (compressImage rt file minSizeKB maxSizeKB)))%nat ->
         yields rt (draw img) k blob -> sizeKB_of blob < minSizeKB ->
         fst (compressImage rt file minSizeKB maxSizeKB) = Resolved (blob_dataURL blob))
  /\ decreasing (snd (compressImage rt file minSizeKB maxSizeKB)).
Proof.
  intros Hdec Hwin.
  assert (Hsmall : forall k blob, yields rt (draw img) k blob ->
                                  sizeKB_of blob < minSizeKB ->
                                  oversized rt (draw img) maxSizeKB k -> False).
  { intros k blob Hy Hlt Hov.
    apply (oversized_not_fitting rt (draw img) maxSizeKB k blob Hov Hy).
    apply Qlt_le_weak. apply (Qlt_le_trans _ _ _ Hlt Hwin). }
  destruct (compressImage_run rt file img minSizeKB maxSizeKB Hdec)
    as [Hall | k0 b Hk0 Hall Hy0 Hle | k0 Hk0 Hall Hnull];
    cbn [fst snd]; rewrite length_map, length_seq.
  - split; [|split].
    + intros blob Hy Hlt. exfalso.
      apply (Hsmall 0%nat blob Hy Hlt). apply (Hall 0%nat). lia.
    + intros k blob Hk Hy Hlt. exfalso.
      apply (Hsmall k blob Hy Hlt). apply (Hall k Hk).
    + apply decreasing_qualities.
  - cbn [Nat.add] in Hy0. split; [|split].
    + intros blob Hy Hlt. destruct k0 as [|k0].
      * rewrite (yields_functional rt (draw img) 0 blob b Hy Hy0). reflexivity.
      * exfalso. apply (Hsmall 0%nat blob Hy Hlt). apply (Hall 0%nat). lia.
    + intros k blob Hk Hy Hlt.
      assert (k = k0 \/ k < k0)%nat as [Heq|Hlt0] by lia.
      * subst k. rewrite (yields_functional rt (draw img) k0 blob b Hy Hy0). reflexivity.
      * exfalso. apply (Hsmall k blob Hy Hlt). apply (Hall k Hlt0).
    + apply decreasing_qualities.
  - cbn [Nat.add] in Hnull. split; [|split].
    + intros blob Hy Hlt. exfalso. destruct k0 as [|k0].
      * unfold yields in Hy. cbn [quality_at] in Hy, Hnull. congruence.
      * apply (Hsmall 0%nat blob Hy Hlt). apply (Hall 0%nat). lia.
    + intros k blob Hk Hy Hlt. exfalso.
      assert (k = k0 \/ k < k0)%nat as [Heq|Hlt0] by lia.
      * subst k. unfold yields in Hy. congruence.
      * apply (Hsmall k blob Hy Hlt). apply (Hall k Hlt0).
    + apply decreasing_qualities.
Qed.

Lemma undersized_attempt_is_accepted_witness :
  compressImage (runtime_with (constant 5120)) a_file 20 50
  = (Resolved (blob_dataURL (jpeg 5120)), [0.9]).
Proof.
  apply (proj1 (undersized_attempt_is_accepted
                  (runtime_with (constant 5120)) a_file photo 20 50
                  (runtime_with_decodes (constant 5120))
                  ltac:(vm_compute; discriminate))).
  - reflexivity.
  - vm_compute. reflexivity.
Defined.

(** ** The search loop: giving up *)

Lemma append_assoc (a b c : string) : ((a ++ b) ++ c = a ++ b ++ c)%string.
Proof.
  induction a as [|ch a IH]; [reflexivity|].
  cbn [String.append]. rewrite IH. reflexivity.
Qed.

Lemma message_names_min (rt : Runtime) (minSizeKB maxSizeKB : Q) :
  occurs_in (numberToString rt minSizeKB) (unsatisfiable_message rt minSizeKB maxSizeKB).
Proof.
  exists "Could not compress image to be between "%string.
  exists ("KB and " ++ numberToString rt maxSizeKB
          ++ "KB. Please try a different image.")%string.
  reflexivity.
Qed.

Lemma message_names_max (rt : Runtime) (minSizeKB maxSizeKB : Q) :
  occurs_in (numberToString rt maxSizeKB) (unsatisfiable_message rt minSizeKB maxSizeKB).
Proof.
  exists ("Could not compress image to be between " ++ numberToString rt minSizeKB
          ++ "KB and ")%string.
  exists "KB. Please try a different image."%string.
  unfold unsatisfiable_message. rewrite !append_assoc. reflexivity.
Qed.

Lemma compressImage_exhausted
  (rt : Runtime) (file : File) (img : Image) (minSizeKB maxSizeKB : Q) :
  decodes_to rt file img ->
  (forall k, (k < 10)%nat -> oversized rt (draw img) maxSizeKB k) ->
  compressImage rt file minSizeKB maxSizeKB
  = (Rejected (Error (unsatisfiable_message rt minSizeKB maxSizeKB)),
     map quality_at (seq 0 10)).
Proof.
  intros Hdec Hover.
  destruct (compressImage_run rt file img minSizeKB maxSizeKB Hdec)
    as [Hall | k0 b Hk0 Hall Hy0 Hle | k0 Hk0 Hall Hnull].
  - reflexivity.
  - exfalso. cbn [Nat.add] in Hy0.
    exact (oversized_not_fitting rt (draw img) maxSizeKB k0 b (Hover k0 Hk0) Hy0 Hle).
  - exfalso. cbn [Nat.add] in Hnull.
    exact (oversized_not_null rt (draw img) maxSizeKB k0 (Hover k0 Hk0) Hnull).
Qed.

(** C3: when each of the 10 encode attempts gives a blob larger than
    [maxSizeKB], the promise is rejected, after exactly those 10 attempts,
    with the error whose message is the template filled with [minSizeKB] and
    [maxSizeKB]: both bounds occur in it; the promise is not resolved with
    any value. *)
Theorem exhausted_budget_names_both_bounds
  (rt : Runtime) (file : File) (img : Image) (minSizeKB maxSizeKB : Q) :
  decodes_to rt file img ->
  (forall k, (k < 10)%nat -> oversized rt (draw img) maxSizeKB k) ->
  compressImage rt file minSizeKB maxSizeKB
  = (Rejected (Error (unsatisfiable_message rt minSizeKB maxSizeKB)),
     map quality_at (seq 0 10))
  /\ unsatisfiable_message rt minSizeKB maxSizeKB
     = ("Could not compress image to be between " ++ numberToString rt minSizeKB
        ++ "KB and " ++ numberToString rt maxSizeKB
        ++ "KB. Please try a different image.")%string
  /\ occurs_in (numberToString rt minSizeKB) (unsatisfiable_message rt minSizeKB maxSizeKB)
  /\ occurs_in (numberToString rt maxSizeKB) (unsatisfiable_message rt minSizeKB maxSizeKB)
  /\ (forall value, fst (compressImage rt file minSizeKB maxSizeKB) <> Resolved value).
Proof.
  intros Hdec Hover.
  pose proof (compressImage_exhausted rt file img minSizeKB maxSizeKB Hdec Hover) as Hrej.
  repeat split.
  - exact Hrej.
  - apply message_names_min.
  - apply message_names_max.
  - intro value. rewrite Hrej. cbn [fst]. discriminate.
Qed.

Lemma constant_1MB_oversized (k : nat) :
  oversized (runtime_with (constant 1048576)) (draw photo) 50 k.
Proof.
  exists (jpeg 1048576). split; [reflexivity | vm_compute; reflexivity].
Defined.

Lemma exhausted_budget_names_both_bounds_witness :
  compressImage (runtime_with (constant 1048576)) a_file 20 50
  = (Rejected (Error (unsatisfiable_message (runtime_with (constant 1048576)) 20 50)),
     map quality_at (seq 0 10))
  /\ unsatisfiable_message (runtime_with (constant 1048576)) 20 50
     = "Could not compress image to be between 20KB and 50KB. Please try a different image."%string.
Proof.
  destruct (exhausted_budget_names_both_bounds
              (runtime_with (constant 1048576)) a_file photo 20 50
              (runtime_with_decodes (constant 1048576))
              (fun k _ => constant_1MB_oversized k)) as [Hrej [Hmsg _]].
  split; [exact Hrej | exact Hmsg].
Defined.

(** C8: when the source does not decode (the reader, or the image load,
    ends in [onerror] with event [ev]), the promise is rejected with that
    event and no encode attempt is made. *)
Theorem decode_failure_rejects_without_encoding
  (rt : Runtime) (file : File) (minSizeKB maxSizeKB : Q) (ev : Event) :
  decode_fails rt file ev ->
  compressImage rt file minSizeKB maxSizeKB = (Rejected (ErrorEvent ev), []).
Proof.
  intros [Hread | [url [Hread Hload]]]; unfold compressImage.
  - rewrite Hread. reflexivity.
  - rewrite Hread, Hload. reflexivity.
Qed.

Lemma decode_failure_rejects_without_encoding_witness :
  compressImage runtime_without_decoder a_file 20 50
  = (Rejected (ErrorEvent "error"%string), []).
Proof.
  apply (decode_failure_rejects_without_encoding runtime_without_decoder a_file 20 50).
  right. exists "data:text/plain;base64,aGVsbG8="%string. split; reflexivity.
Defined.

(** C10: with [maxSizeKB < minSizeKB] no size takes the within-range
    branch; the first attempt whose blob is not larger than [maxSizeKB]
    (every attempt before it gave a larger blob) is accepted by the
    too-small branch; when all 10 attempts give larger blobs the promise is
    rejected with the size-constraint error; and every run ends in one of
    the three ways of [Run]. *)
Theorem inverted_window_run
  (rt : Runtime) (file : File) (img : Image) (minSizeKB maxSizeKB : Q) :
  decodes_to rt file img ->
  maxSizeKB < minSizeKB ->
  (forall sizeKB, gt sizeKB maxSizeKB = false -> lt sizeKB minSizeKB = true)
  /\ (forall k blob,
         (k < 10)%nat ->
         (forall i, (i < k)%nat -> oversized rt (draw img) maxSizeKB i) ->
         yields rt (draw img) k blob ->
         sizeKB_of blob <= maxSizeKB ->
         gt (sizeKB_of blob) maxSizeKB = false
         /\ lt (sizeKB_of blob) minSizeKB = true
         /\ compressImage rt file minSizeKB maxSizeKB
            = (Resolved (blob_dataURL blob), map quality_at (seq 0 (S k))))
  /\ ((forall k, (k < 10)%nat -> oversized rt (draw img) maxSizeKB k) ->
      compressImage rt file minSizeKB maxSizeKB
      = (Rejected (Error (unsatisfiable_message rt minSizeKB maxSizeKB)),
         map quality_at (seq 0 10)))
  /\ Run rt (draw img) minSizeKB maxSizeKB 0 10
         (compressImage rt file minSizeKB maxSizeKB).
Proof.
  intros Hdec Hinv.
  assert (Hbranch : forall sizeKB, gt sizeKB maxSizeKB = false -> lt sizeKB minSizeKB = true).
  { intros s Hs. apply gt_false in Hs. apply lt_true.
    exact (Qle_lt_trans _ _ _ Hs Hinv). }
  split; [exact Hbranch|]. split; [|split].
  - intros k blob Hk Hbefore Hy Hfit.
    assert (Hgt : gt (sizeKB_of blob) maxSizeKB = false) by (apply gt_false; exact Hfit).
    split; [exact Hgt|]. split; [exact (Hbranch _ Hgt)|].
    destruct (compressImage_run rt file img minSizeKB maxSizeKB Hdec)
      as [Hall | k0 b Hk0 Hall Hy0 Hle | k0 Hk0 Hall Hnull].
    + exfalso.
      exact (oversized_not_fitting rt (draw img) maxSizeKB k blob (Hall k Hk) Hy Hfit).
    + cbn [Nat.add] in Hy0.
      destruct (lt_eq_lt_dec k0 k) as [[Hlt0|Heq]|Hgt0].
      * exfalso.
        exact (oversized_not_fitting rt (draw img) maxSizeKB k0 b (Hbefore k0 Hlt0) Hy0 Hle).
      * subst k0. rewrite (yields_functional rt (draw img) k blob b Hy Hy0). reflexivity.
      * exfalso.
        exact (oversized_not_fitting rt (draw img) maxSizeKB k blob (Hall k Hgt0) Hy Hfit).
    + exfalso. cbn [Nat.add] in Hnull.
      destruct (lt_eq_lt_dec k0 k) as [[Hlt0|Heq]|Hgt0].
      * exact (oversized_not_null rt (draw img) maxSizeKB k0 (Hbefore k0 Hlt0) Hnull).
      * subst k0. unfold yields in Hy. congruence.
      * exact (oversized_not_fitting rt (draw img) maxSizeKB k blob (Hall k Hgt0) Hy Hfit).
  - intro Hover.
    exact (compressImage_exhausted rt file img minSizeKB maxSizeKB Hdec Hover).
  - apply (compressImage_run rt file img minSizeKB maxSizeKB Hdec).
Qed.

Lemma inverted_window_run_witness :
  gt (sizeKB_of (jpeg 20480)) 20 = false
  /\ lt (sizeKB_of (jpeg 20480)) 50 = true
  /\ compressImage (runtime_with proportional) a_file 50 20
     = (Resolved (blob_dataURL (jpeg 20480)), map quality_at (seq 0 8)).
Proof.
  apply (proj1 (proj2 (inverted_window_run
                         (runtime_with proportional) a_file photo 50 20
                         (runtime_with_decodes proportional)
                         ltac:(vm_compute; reflexivity)))).
  - lia.
  - intros i Hi.
    do 7 (destruct i as [|i];
          [eexists; split; [reflexivity | vm_compute; reflexivity]|]).
    lia.
  - reflexivity.
  - vm_compute. discriminate.
Defined.

(** Two runs, evaluated: with the window 20-50 KB the proportional encoder
    is accepted at its fifth attempt (quality 0.5, 50 KB); an encoder that
    always gives 1 MB uses up the ten attempts. *)
Example proportional_run :
  compressImage (runtime_with proportional) a_file 20 50
  = (Resolved (blob_dataURL (jpeg 51200)), map quality_at (seq 0 5)).
Proof. reflexivity. Qed.

Example constant_1MB_run :
  compressImage (runtime_with (constant 1048576)) a_file 20 50
  = (Rejected (Error "Could not compress image to be between 20KB and 50KB. Please try a different image."),
     map quality_at (seq 0 10)).
Proof. reflexivity. Qed.

(** The encoder-failure path: a [null] blob at the first attempt rejects
    the promise at once, whatever later qualities would have given. *)
Example encoder_failure_ends_the_run :
  compressImage (runtime_with fails_first) a_file 20 50
  = (Rejected (Error "Canvas to Blob conversion failed."), [0.9])
  /\ yields (runtime_with fails_first) (draw photo) 1 (jpeg 10240).
Proof. split; reflexivity. Qed.

(** ** The qualities handed to the encoder *)

(** The calls of the binary64 loop are the first [n <= attempts] terms of
    the binary64 sequence. *)
Lemma tryCompress64_calls
  (rt : Runtime) (toBlob64 : Canvas -> float -> option Blob) (canvas : Canvas)
  (minSizeKB maxSizeKB : Q) (attempts j : nat) :
  exists n, (n <= attempts)%nat
            /\ snd (tryCompress64 rt toBlob64 canvas minSizeKB maxSizeKB
                                  (Binary64.quality_at j) attempts)
               = map Binary64.quality_at (seq j n).
Proof.
  revert j. induction attempts as [|attempts IH]; intro j.
  - exists 0%nat. split; [lia|reflexivity].
  - cbn [tryCompress64].
    destruct (toBlob64 canvas (Binary64.quality_at j)) as [blob|].
    + cbv zeta. destruct (gt (sizeKB_of blob) maxSizeKB).
      * destruct (IH (S j)) as [n [Hn Hcalls]]. cbn [Binary64.quality_at] in Hcalls.
        destruct (tryCompress64 rt toBlob64 canvas minSizeKB maxSizeKB
                    (PrimFloat.sub (Binary64.quality_at j) Binary64.step) attempts)
          as [settled calls].
        cbn [snd] in *. exists (S n). split; [lia|]. rewrite Hcalls. reflexivity.
      * exists 1%nat. split; [lia|].
        destruct (lt (sizeKB_of blob) minSizeKB); reflexivity.
    + exists 1%nat. split; [lia|reflexivity].
Qed.

Lemma compressImage64_calls
  (rt : Runtime) (toBlob64 : Canvas -> float -> option Blob)
  (file : File) (minSizeKB maxSizeKB : Q) :
  exists n, (n <= 10)%nat
            /\ snd (compressImage64 rt toBlob64 file minSizeKB maxSizeKB)
               = map Binary64.quality_at (seq 0 n).
Proof.
  unfold compressImage64.
  destruct (readAsDataURL rt file) as [ev|url]; [exists 0%nat; split; [lia|reflexivity]|].
  destruct (loadImage rt url) as [ev|img]; [exists 0%nat; split; [lia|reflexivity]|].
  destruct (getContext2d rt); cbn [negb]; [|exists 0%nat; split; [lia|reflexivity]].
  apply (tryCompress64_calls rt toBlob64 (draw img) minSizeKB maxSizeKB 10 0).
Qed.

(** The binary64 loop and the exact loop take the same branches: when the
    two encoders answer alike attempt by attempt, the promises settle alike
    and as many encoder calls are made. *)
Lemma tryCompress64_agrees
  (rt : Runtime) (toBlob64 : Canvas -> float -> option Blob) (canvas : Canvas)
  (minSizeKB maxSizeKB : Q) (attempts j : nat) :
  (forall k, toBlob64 canvas (Binary64.quality_at k) = toBlob rt canvas (quality_at k)) ->
  fst (tryCompress64 rt toBlob64 canvas minSizeKB maxSizeKB (Binary64.quality_at j) attempts)
  = fst (tryCompress rt canvas minSizeKB maxSizeKB (quality_at j) attempts)
  /\ List.length (snd (tryCompress64 rt toBlob64 canvas minSizeKB maxSizeKB
                                     (Binary64.quality_at j) attempts))
     = List.length (snd (tryCompress rt canvas minSizeKB maxSizeKB (quality_at j) attempts)).
Proof.
  intro Hsame. revert j. induction attempts as [|attempts IH]; intro j.
  - split; reflexivity.
  - cbn [tryCompress64 tryCompress]. rewrite (Hsame j).
    destruct (toBlob rt canvas (quality_at j)) as [blob|]; [|split; reflexivity].
    cbv zeta. destruct (gt (sizeKB_of blob) maxSizeKB).
    + specialize (IH (S j)). cbn [Binary64.quality_at quality_at] in IH.
      destruct (tryCompress64 rt toBlob64 canvas minSizeKB maxSizeKB
                  (PrimFloat.sub (Binary64.quality_at j) Binary64.step) attempts)
        as [settled64 calls64].
      destruct (tryCompress rt canvas minSizeKB maxSizeKB (quality_at j - 0.1) attempts)
        as [settled calls].
      cbn [fst snd List.length] in *. destruct IH as [Hsettled Hlength].
      split; [exact Hsettled | rewrite Hlength; reflexivity].
    + destruct (lt (sizeKB_of blob) minSizeKB); split; reflexivity.
Qed.

(** C4, as stated, fails: the code subtracts 0.1 in binary64, and the third
    quality an invocation hands to the encoder is 0.7000000000000001
    (0x1.6666666666667p-1), not the double 0.7; the difference between the
    second and the third quality is not the double 0.1 either. *)
Lemma third_quality_is_not_0_7 :
  nth 2 (snd (compressImage64 (runtime_with (constant 1048576)) always_1MB a_file 20 50))
      0%float
  = 0x1.6666666666667p-1%float
  /\ PrimFloat.eqb 0x1.6666666666667p-1 (PrimFloat.div 7 10) = false
  /\ PrimFloat.eqb (PrimFloat.sub (Binary64.quality_at 1) (Binary64.quality_at 2))
                   Binary64.step = false.
Proof. repeat split; vm_compute; reflexivity. Qed.

(** C4, amended: in every invocation the qualities passed to the encoder
    are the first [n] terms, [n <= 10], of the sequence that starts at the
    double 0.9 and subtracts the double 0.1 in binary64 at every retry:
    0.9, 0.8, 0.7000000000000001, 0.6000000000000001, 0.5000000000000001,
    0.40000000000000013, 0.30000000000000016, 0.20000000000000015,
    0.10000000000000014, 1.3877787807814457e-16.  The sequence is strictly
    decreasing, and each term is within 2^-52 of the double nearest to
    0.9, 0.8, ..., 0. *)
Theorem quality_sequence_in_binary64
  (rt : Runtime) (toBlob64 : Canvas -> float -> option Blob)
  (file : File) (minSizeKB maxSizeKB : Q) :
  (exists n, (n <= 10)%nat
             /\ snd (compressImage64 rt toBlob64 file minSizeKB maxSizeKB)
                = map Binary64.quality_at (seq 0 n))
  /\ (List.length (snd (compressImage64 rt toBlob64 file minSizeKB maxSizeKB)) <= 10)%nat
  /\ map Binary64.quality_at (seq 0 10)
     = [0x1.ccccccccccccdp-1; 0x1.999999999999ap-1; 0x1.6666666666667p-1;
        0x1.3333333333334p-1; 0x1.0000000000001p-1; 0x1.999999999999cp-2;
        0x1.3333333333336p-2; 0x1.999999999999fp-3; 0x1.99999999999a4p-4;
        0x1.4p-53]%float
  /\ Binary64.quality_at 0 = PrimFloat.div 9 10
  /\ (forall k, Binary64.quality_at (S k)
                = PrimFloat.sub (Binary64.quality_at k) (PrimFloat.div 1 10))
  /\ forallb (fun k => PrimFloat.ltb (Binary64.quality_at (S k)) (Binary64.quality_at k))
             (seq 0 9) = true
  /\ forallb (fun pair => PrimFloat.leb (PrimFloat.abs (PrimFloat.sub (fst pair) (snd pair)))
                                        0x1p-52)
             (combine (map Binary64.quality_at (seq 0 10)) nearest_tenths) = true.
Proof.
  destruct (compressImage64_calls rt toBlob64 file minSizeKB maxSizeKB) as [n [Hn Hcalls]].
  split; [exists n; split; assumption|].
  split; [rewrite Hcalls, length_map, length_seq; exact Hn|].
  split; [vm_compute; reflexivity|].
  split; [reflexivity|].
  split; [intro k; reflexivity|].
  split; vm_compute; reflexivity.
Qed.

Lemma ieee_quality_in_unit_interval :
  forallb Binary64.in_unit_interval (map Binary64.quality_at (seq 0 10)) = true.
Proof. vm_compute. reflexivity. Qed.

(** C7: every quality handed to the encoder, in every invocation (so also
    when the file is an earlier output of [compressImage] and the window is
    the same), lies in [0, 1]; the same ten subtractions carried out in
    binary64 stay in [0, 1] as well. *)
Theorem quality_within_encoder_range
  (rt : Runtime) (file : File) (minSizeKB maxSizeKB : Q) :
  Forall (fun quality => 0 <= quality /\ quality <= 1)
         (snd (compressImage rt file minSizeKB maxSizeKB))
  /\ forallb Binary64.in_unit_interval
             (map Binary64.quality_at (seq 0 10)) = true.
Proof.
  split; [|exact ieee_quality_in_unit_interval].
  destruct (compressImage_calls rt file minSizeKB maxSizeKB) as [n [Hn Hcalls]].
  rewrite Hcalls. apply Forall_map. apply Forall_forall.
  intros k Hin. apply in_seq in Hin. apply quality_at_in_range. lia.
Qed.

(** ** The resize step *)

Lemma scale_down (x bound d : Q) :
  0 <= x -> 0 < bound -> bound < d -> x * (bound / d) <= x.
Proof.
  intros Hx Hbound Hd.
  assert (Hpos : 0 < d) by exact (Qlt_trans _ _ _ Hbound Hd).
  assert (Hratio : bound / d <= 1).
  { apply Qle_shift_div_r; [exact Hpos|]. rewrite Qmult_1_l. apply Qlt_le_weak. exact Hd. }
  rewrite <- (Qmult_1_r x) at 2. rewrite !(Qmult_comm x).
  apply Qmult_le_compat_r; assumption.
Qed.

Lemma canvas_of_draw (img : Image) :
  canvas_width (draw img) = Qfloor (fst (resize img))
  /\ canvas_height (draw img) = Qfloor (snd (resize img)).
Proof.
  unfold draw. destruct (resize img) as [width height]. split; reflexivity.
Qed.

Lemma resize_shrinks (img : Image) :
  fst (resize img) <= number_of_N (img_width img)
  /\ snd (resize img) <= number_of_N (img_height img).
Proof.
  unfold resize.
  destruct (gt (number_of_N (img_width img)) (number_of_N (img_height img))) eqn:Hwh.
  - destruct (gt (number_of_N (img_width img)) MAX_WIDTH) eqn:Hw; cbn [fst snd].
    + apply gt_true in Hw. split.
      * apply Qlt_le_weak. exact Hw.
      * apply scale_down; [apply number_of_N_nonneg | reflexivity | exact Hw].
    + split; apply Qle_refl.
  - destruct (gt (number_of_N (img_height img)) MAX_HEIGHT) eqn:Hh; cbn [fst snd].
    + apply gt_true in Hh. split.
      * apply scale_down; [apply number_of_N_nonneg | reflexivity | exact Hh].
      * apply Qlt_le_weak. exact Hh.
    + split; apply Qle_refl.
Qed.

Lemma floor_below (x : Q) (n : N) : x <= number_of_N n -> (Qfloor x <= Z.of_N n)%Z.
Proof.
  intro H. unfold number_of_N in H.
  rewrite <- (Qfloor_Z (Z.of_N n)). apply Qfloor_resp_le. exact H.
Qed.

(** C6: the resize step increases neither dimension, of the numbers it
    computes and of the canvas; a 2000 x 1000 image takes the branch that
    scales to the maximal width and gets a 1024 x 512 canvas, with the
    ratio of width to height that the image has. *)
Theorem resize_never_enlarges :
  (forall img,
      fst (resize img) <= number_of_N (img_width img)
      /\ snd (resize img) <= number_of_N (img_height img)
      /\ (canvas_width (draw img) <= Z.of_N (img_width img))%Z
      /\ (canvas_height (draw img) <= Z.of_N (img_height img))%Z)
  /\ (forall src,
         gt 2000 1000 = true
         /\ gt 2000 MAX_WIDTH = true
         /\ resize (mkImage src 2000 1000) = (MAX_WIDTH, 1000 * (MAX_WIDTH / 2000))
         /\ fst (resize (mkImage src 2000 1000)) == 1024
         /\ snd (resize (mkImage src 2000 1000)) == 512
         /\ canvas_width (draw (mkImage src 2000 1000)) = 1024%Z
         /\ canvas_height (draw (mkImage src 2000 1000)) = 512%Z
         /\ fst (resize (mkImage src 2000 1000)) / snd (resize (mkImage src 2000 1000))
            == 2000 / 1000).
Proof.
  split.
  - intro img. destruct (resize_shrinks img) as [Hw Hh].
    destruct (canvas_of_draw img) as [Hcw Hch]. rewrite Hcw, Hch.
    repeat split; [exact Hw | exact Hh | apply floor_below; exact Hw
                   | apply floor_below; exact Hh].
  - intro src. repeat split; reflexivity.
Qed.

(** C9: an image whose width and height are both at most 1024 keeps its
    dimensions: the numbers are the image's own, and so is the size of the
    canvas. *)
Theorem small_image_keeps_its_size (img : Image) :
  (img_width img <= 1024)%N ->
  (img_height img <= 1024)%N ->
  resize img = (number_of_N (img_width img), number_of_N (img_height img))
  /\ canvas_width (draw img) = Z.of_N (img_width img)
  /\ canvas_height (draw img) = Z.of_N (img_height img).
Proof.
  intros Hw Hh.
  assert (Hres : resize img = (number_of_N (img_width img), number_of_N (img_height img))).
  { unfold resize.
    assert (Hgw : gt (number_of_N (img_width img)) MAX_WIDTH = false).
    { apply gt_false. apply (number_of_N_le _ 1024 Hw). }
    assert (Hgh : gt (number_of_N (img_height img)) MAX_HEIGHT = false).
    { apply gt_false. apply (number_of_N_le _ 1024 Hh). }
    rewrite Hgw, Hgh.
    destruct (gt (number_of_N (img_width img)) (number_of_N (img_height img)));
      reflexivity. }
  destruct (canvas_of_draw img) as [Hcw Hch]. rewrite Hcw, Hch, Hres.
  cbn [fst snd]. unfold number_of_N. rewrite !Qfloor_Z. repeat split.
Qed.

Lemma small_image_keeps_its_size_witness :
  resize portrait = (500, 800)
  /\ canvas_width (draw portrait) = 500%Z
  /\ canvas_height (draw portrait) = 800%Z.
Proof.
  apply (small_image_keeps_its_size portrait); vm_compute; discriminate.
Defined.

(** In binary64 the height computed for a 2000 x 1000 image is 512 too. *)
Lemma binary64_height_of_2000x1000 :
  PrimFloat.eqb Binary64.height_of_2000x1000 512%float = true.
Proof. vm_compute. reflexivity. Qed.

(** C5, as stated, fails: a 500 x 800 image does not pass the test
    [height > MAX_HEIGHT], and its canvas is 500 x 800, not 640 x 1024. *)
Lemma portrait_is_not_scaled_to_640x1024 :
  gt (number_of_N (img_height portrait)) MAX_HEIGHT = false
  /\ (canvas_width (draw portrait), canvas_height (draw portrait)) = (500, 800)%Z
  /\ (canvas_width (draw portrait), canvas_height (draw portrait)) <> (640, 1024)%Z
  /\ ~ fst (resize portrait) == 640
  /\ ~ snd (resize portrait) == 1024.
Proof.
  repeat split; try reflexivity; try discriminate.
Qed.

(** C5, amended: for an image of width 500 and height 800 the test
    [width > height] fails, so the resize step is on the side of the height
    bound, and the test [height > MAX_HEIGHT] fails as well, so nothing is
    scaled: the output dimensions are width 500 and height 800. *)
Theorem image_500x800_is_not_resized (src : string) :
  gt (number_of_N 500) (number_of_N 800) = false
  /\ gt (number_of_N 800) MAX_HEIGHT = false
  /\ resize (mkImage src 500 800) = (500, 800)
  /\ canvas_width (draw (mkImage src 500 800)) = 500%Z
  /\ canvas_height (draw (mkImage src 500 800)) = 800%Z.
Proof.
  repeat split; reflexivity.
Qed.

(** * Further properties of the compressor *)

(** ** What an outcome tells about the run *)

(** A file either decodes, or the promise is rejected before the loop, with
    an event or the canvas-context error, whatever the window. *)
Lemma compressImage_cases (rt : Runtime) (file : File) :
  (exists img, decodes_to rt file img)
  \/ (exists reason,
         (reason = Error "Could not get canvas context" \/ exists ev, reason = ErrorEvent ev)
         /\ forall minSizeKB maxSizeKB,
             compressImage rt file minSizeKB maxSizeKB = (Rejected reason, [])).
Proof.
  unfold compressImage, decodes_to.
  destruct (readAsDataURL rt file) as [ev|url] eqn:Hread.
  - right. exists (ErrorEvent ev). split; [right; exists ev; reflexivity|reflexivity].
  - destruct (loadImage rt url) as [ev|img] eqn:Hload.
    + right. exists (ErrorEvent ev). split; [right; exists ev; reflexivity|reflexivity].
    + destruct (getContext2d rt) eqn:Hctx.
      * left. exists img, url. repeat split; assumption.
      * right. exists (Error "Could not get canvas context").
        split; [left; reflexivity|reflexivity].
Qed.

Lemma unsatisfiable_message_is_not_context (rt : Runtime) (minSizeKB maxSizeKB : Q) :
  unsatisfiable_message rt minSizeKB maxSizeKB <> "Could not get canvas context"%string.
Proof. unfold unsatisfiable_message. cbn [String.append]. congruence. Qed.

Lemma unsatisfiable_message_is_not_conversion (rt : Runtime) (minSizeKB maxSizeKB : Q) :
  unsatisfiable_message rt minSizeKB maxSizeKB <> "Canvas to Blob conversion failed."%string.
Proof. unfold unsatisfiable_message. cbn [String.append]. congruence. Qed.

(** X1: whenever the promise resolves, its value is the data URL of a blob
    the encoder gave at one of the ten qualities, that blob is not larger
    than [maxSizeKB], and every attempt before it gave a larger blob: the
    value is the first fit, at the highest quality that fits. *)
Theorem resolved_value_is_first_fit
  (rt : Runtime) (file : File) (minSizeKB maxSizeKB : Q) (value : string) :
  fst (compressImage rt file minSizeKB maxSizeKB) = Resolved value ->
  exists img k blob,
    decodes_to rt file img
    /\ (k < 10)%nat
    /\ (forall i, (i < k)%nat -> oversized rt (draw img) maxSizeKB i)
    /\ yields rt (draw img) k blob
    /\ sizeKB_of blob <= maxSizeKB
    /\ value = blob_dataURL blob
    /\ snd (compressImage rt file minSizeKB maxSizeKB) = map quality_at (seq 0 (S k)).
Proof.
  intro Hres.
  destruct (compressImage_cases rt file) as [[img Hdec] | [reason [_ Hrej]]].
  - exists img.
    destruct (compressImage_run rt file img minSizeKB maxSizeKB Hdec)
      as [Hall | k b Hk Hall Hy Hle | k Hk Hall Hnull]; cbn [fst snd] in *.
    + discriminate Hres.
    + exists k, b. injection Hres as Hv. repeat split; auto.
    + discriminate Hres.
  - rewrite Hrej in Hres. discriminate Hres.
Qed.

Lemma resolved_value_is_first_fit_witness :
  exists img k blob,
    decodes_to (runtime_with proportional) a_file img
    /\ (k < 10)%nat
    /\ (forall i, (i < k)%nat -> oversized (runtime_with proportional) (draw img) 50 i)
    /\ yields (runtime_with proportional) (draw img) k blob
    /\ sizeKB_of blob <= 50
    /\ blob_dataURL (jpeg 51200) = blob_dataURL blob
    /\ snd (compressImage (runtime_with proportional) a_file 20 50)
       = map quality_at (seq 0 (S k)).
Proof.
  apply (resolved_value_is_first_fit (runtime_with proportional) a_file 20 50
           (blob_dataURL (jpeg 51200))).
  reflexivity.
Defined.

(** X2: the rejection with the size-constraint message happens only after
    ten encodings that all gave blobs larger than [maxSizeKB]. *)
Theorem size_rejection_means_ten_oversized
  (rt : Runtime) (file : File) (minSizeKB maxSizeKB : Q) :
  fst (compressImage rt file minSizeKB maxSizeKB)
  = Rejected (Error (unsatisfiable_message rt minSizeKB maxSizeKB)) ->
  exists img,
    decodes_to rt file img
    /\ (forall k, (k < 10)%nat -> oversized rt (draw img) maxSizeKB k)
    /\ snd (compressImage rt file minSizeKB maxSizeKB) = map quality_at (seq 0 10).
Proof.
  intro Hrej.
  destruct (compressImage_cases rt file) as [[img Hdec] | [reason [Hwhy Hout]]].
  - exists img. split; [exact Hdec|].
    destruct (compressImage_run rt file img minSizeKB maxSizeKB Hdec)
      as [Hall | k b Hk Hall Hy Hle | k Hk Hall Hnull]; cbn [fst snd] in *.
    + split; [exact Hall | reflexivity].
    + discriminate Hrej.
    + exfalso. apply (unsatisfiable_message_is_not_conversion rt minSizeKB maxSizeKB).
      congruence.
  - exfalso. rewrite Hout in Hrej. cbn [fst] in Hrej.
    destruct Hwhy as [Hctx | [ev Hev]]; subst reason.
    + apply (unsatisfiable_message_is_not_context rt minSizeKB maxSizeKB).
      congruence.
    + discriminate Hrej.
Qed.

Lemma size_rejection_means_ten_oversized_witness :
  exists img,
    decodes_to (runtime_with (constant 1048576)) a_file img
    /\ (forall k, (k < 10)%nat ->
                  oversized (runtime_with (constant 1048576)) (draw img) 50 k)
    /\ snd (compressImage (runtime_with (constant 1048576)) a_file 20 50)
       = map quality_at (seq 0 10).
Proof.
  apply (size_rejection_means_ten_oversized (runtime_with (constant 1048576)) a_file 20 50).
  reflexivity.
Defined.

(** X3: an encoding that gives no blob is fatal: when attempt [k] gets
    [null] after [k] oversized blobs, the promise is rejected with the
    conversion error and no lower quality is tried. *)
Theorem encoder_failure_is_fatal
  (rt : Runtime) (file : File) (img : Image) (minSizeKB maxSizeKB : Q) (k : nat) :
  decodes_to rt file img ->
  (k < 10)%nat ->
  (forall i, (i < k)%nat -> oversized rt (draw img) maxSizeKB i) ->
  toBlob rt (draw img) (quality_at k) = None ->
  compressImage rt file minSizeKB maxSizeKB
  = (Rejected (Error "Canvas to Blob conversion failed."), map quality_at (seq 0 (S k))).
Proof.
  intros Hdec Hk Hbefore Hnone.
  destruct (compressImage_run rt file img minSizeKB maxSizeKB Hdec)
    as [Hall | k0 b Hk0 Hall Hy Hle | k0 Hk0 Hall Hnull]; cbn [Nat.add] in *.
  - exfalso. exact (oversized_not_null rt (draw img) maxSizeKB k (Hall k Hk) Hnone).
  - exfalso. destruct (lt_eq_lt_dec k0 k) as [[Hlt0|Heq]|Hgt0].
    + exact (oversized_not_fitting rt (draw img) maxSizeKB k0 b (Hbefore k0 Hlt0) Hy Hle).
    + subst k0. unfold yields in Hy. congruence.
    + exact (oversized_not_null rt (draw img) maxSizeKB k (Hall k Hgt0) Hnone).
  - destruct (lt_eq_lt_dec k0 k) as [[Hlt0|Heq]|Hgt0].
    + exfalso. exact (oversized_not_null rt (draw img) maxSizeKB k0 (Hbefore k0 Hlt0) Hnull).
    + subst k0. reflexivity.
    + exfalso. exact (oversized_not_null rt (draw img) maxSizeKB k (Hall k Hgt0) Hnone).
Qed.

Lemma encoder_failure_is_fatal_witness :
  compressImage (runtime_with fails_first) a_file 20 50
  = (Rejected (Error "Canvas to Blob conversion failed."), map quality_at (seq 0 1)).
Proof.
  apply (encoder_failure_is_fatal (runtime_with fails_first) a_file photo 20 50 0).
  - apply runtime_with_decodes.
  - lia.
  - intros i Hi. lia.
  - reflexivity.
Defined.

(** ** The lower bound *)

Lemma tryCompress_ignores_min
  (rt : Runtime) (canvas : Canvas) (minSizeKB minSizeKB' maxSizeKB : Q)
  (attempts : nat) (quality : Q) :
  snd (tryCompress rt canvas minSizeKB maxSizeKB quality attempts)
  = snd (tryCompress rt canvas minSizeKB' maxSizeKB quality attempts)
  /\ (fst (tryCompress rt canvas minSizeKB maxSizeKB quality attempts)
      = fst (tryCompress rt canvas minSizeKB' maxSizeKB quality attempts)
      \/ (fst (tryCompress rt canvas minSizeKB maxSizeKB quality attempts)
          = Rejected (Error (unsatisfiable_message rt minSizeKB maxSizeKB))
          /\ fst (tryCompress rt canvas minSizeKB' maxSizeKB quality attempts)
             = Rejected (Error (unsatisfiable_message rt minSizeKB' maxSizeKB)))).
Proof.
  revert quality. induction attempts as [|attempts IH]; intro quality.
  - cbn [tryCompress fst snd]. split; [reflexivity|right; split; reflexivity].
  - cbn [tryCompress].
    destruct (toBlob rt canvas quality) as [blob|].
    + cbv zeta. destruct (gt (sizeKB_of blob) maxSizeKB).
      * specialize (IH (quality - 0.1)).
        destruct (tryCompress rt canvas minSizeKB maxSizeKB (quality - 0.1) attempts)
          as [settled calls].
        destruct (tryCompress rt canvas minSizeKB' maxSizeKB (quality - 0.1) attempts)
          as [settled' calls'].
        cbn [fst snd] in *. destruct IH as [Hcalls Hsettled].
        split; [rewrite Hcalls; reflexivity | exact Hsettled].
      * destruct (lt (sizeKB_of blob) minSizeKB), (lt (sizeKB_of blob) minSizeKB');
          cbn [fst snd]; split; try reflexivity; left; reflexivity.
    + cbn [fst snd]. split; [reflexivity|left; reflexivity].
Qed.

(** X4: [minSizeKB] does not steer the search: two invocations that differ
    only in [minSizeKB] encode at the same qualities and resolve with the
    same value; their outcomes differ at most in the lower bound quoted by
    the size-constraint message. *)
Theorem minSizeKB_does_not_steer_the_search
  (rt : Runtime) (file : File) (minSizeKB minSizeKB' maxSizeKB : Q) :
  snd (compressImage rt file minSizeKB maxSizeKB)
  = snd (compressImage rt file minSizeKB' maxSizeKB)
  /\ (forall value,
         fst (compressImage rt file minSizeKB maxSizeKB) = Resolved value
         <-> fst (compressImage rt file minSizeKB' maxSizeKB) = Resolved value)
  /\ (fst (compressImage rt file minSizeKB maxSizeKB)
      = fst (compressImage rt file minSizeKB' maxSizeKB)
      \/ (fst (compressImage rt file minSizeKB maxSizeKB)
          = Rejected (Error (unsatisfiable_message rt minSizeKB maxSizeKB))
          /\ fst (compressImage rt file minSizeKB' maxSizeKB)
             = Rejected (Error (unsatisfiable_message rt minSizeKB' maxSizeKB)))).
Proof.
  assert (H : snd (compressImage rt file minSizeKB maxSizeKB)
              = snd (compressImage rt file minSizeKB' maxSizeKB)
              /\ (fst (compressImage rt file minSizeKB maxSizeKB)
                  = fst (compressImage rt file minSizeKB' maxSizeKB)
                  \/ (fst (compressImage rt file minSizeKB maxSizeKB)
                      = Rejected (Error (unsatisfiable_message rt minSizeKB maxSizeKB))
                      /\ fst (compressImage rt file minSizeKB' maxSizeKB)
                         = Rejected (Error (unsatisfiable_message rt minSizeKB' maxSizeKB))))).
  { unfold compressImage.
    destruct (readAsDataURL rt file) as [ev|url]; [split; [|left]; reflexivity|].
    destruct (loadImage rt url) as [ev|img]; [split; [|left]; reflexivity|].
    destruct (getContext2d rt); cbn [negb]; [|split; [|left]; reflexivity].
    apply tryCompress_ignores_min. }
  destruct H as [Hcalls Hsettled]. split; [exact Hcalls|]. split; [|exact Hsettled].
  intro value. destruct Hsettled as [Heq | [Hrej Hrej']].
  - rewrite Heq. reflexivity.
  - rewrite Hrej, Hrej'. split; discriminate.
Qed.

(** X5: the encoder is called at least once exactly when the file decodes
    to an image and the canvas has a 2d context; a reader error, a load
    error and a missing context all reject before any encoding. *)
Theorem encoder_called_iff_decoded
  (rt : Runtime) (file : File) (minSizeKB maxSizeKB : Q) :
  snd (compressImage rt file minSizeKB maxSizeKB) <> []
  <-> exists img, decodes_to rt file img.
Proof.
  split.
  - intro Hcalls.
    destruct (compressImage_cases rt file) as [Hdec | [reason [_ Hrej]]]; [exact Hdec|].
    exfalso. apply Hcalls. rewrite Hrej. reflexivity.
  - intros [img Hdec].
    destruct (compressImage_run rt file img minSizeKB maxSizeKB Hdec)
      as [Hall | k b Hk Hall Hy Hle | k Hk Hall Hnull]; cbn [snd seq map]; discriminate.
Qed.

(** ** The upper bound *)

Lemma oversized_for_looser_bound_not_fitting
  (rt : Runtime) (canvas : Canvas) (maxSizeKB maxSizeKB' : Q) (k : nat) (b : Blob) :
  maxSizeKB <= maxSizeKB' ->
  oversized rt canvas maxSizeKB' k -> yields rt canvas k b ->
  sizeKB_of b <= maxSizeKB -> False.
Proof.
  intros Hle Hov Hy Hfit.
  apply (oversized_not_fitting rt canvas maxSizeKB' k b Hov Hy).
  exact (Qle_trans _ _ _ Hfit Hle).
Qed.

(** X10: a looser upper bound never hurts: with [maxSizeKB <= maxSizeKB']
    the invocation with [maxSizeKB'] makes no more encoder calls (so it
    ends at a quality at least as high), and it resolves whenever the
    invocation with [maxSizeKB] does. *)
Theorem looser_bound_stops_no_later
  (rt : Runtime) (file : File) (minSizeKB maxSizeKB maxSizeKB' : Q) :
  maxSizeKB <= maxSizeKB' ->
  (List.length (snd (compressImage rt file minSizeKB maxSizeKB'))
   <= List.length (snd (compressImage rt file minSizeKB maxSizeKB)))%nat
  /\ (forall value,
         fst (compressImage rt file minSizeKB maxSizeKB) = Resolved value ->
         exists value', fst (compressImage rt file minSizeKB maxSizeKB') = Resolved value').
Proof.
  intro Hle.
  destruct (compressImage_cases rt file) as [[img Hdec] | [reason [_ Hrej]]].
  - destruct (compressImage_run rt file img minSizeKB maxSizeKB Hdec)
      as [Hall | k b Hk Hall Hy Hfit | k Hk Hall Hnull];
      destruct (compressImage_run rt file img minSizeKB maxSizeKB' Hdec)
      as [Hall' | k' b' Hk' Hall' Hy' Hfit' | k' Hk' Hall' Hnull'];
      cbn [fst snd Nat.add] in *; rewrite ?length_map, ?length_seq;
      (split; [|intros value Hres; try discriminate Hres]).
    + lia.
    + lia.
    + lia.
    + exfalso.
      exact (oversized_for_looser_bound_not_fitting rt (draw img) _ _ k b Hle (Hall' k Hk) Hy Hfit).
    + exfalso.
      exact (oversized_for_looser_bound_not_fitting rt (draw img) _ _ k b Hle (Hall' k Hk) Hy Hfit).
    + destruct (le_lt_dec k' k) as [Hkk|Hkk]; [lia|]. exfalso.
      exact (oversized_for_looser_bound_not_fitting rt (draw img) _ _ k b Hle (Hall' k Hkk) Hy Hfit).
    + exists (blob_dataURL b'). reflexivity.
    + destruct (le_lt_dec k' k) as [Hkk|Hkk]; [lia|]. exfalso.
      exact (oversized_for_looser_bound_not_fitting rt (draw img) _ _ k b Hle (Hall' k Hkk) Hy Hfit).
    + exfalso. destruct (lt_eq_lt_dec k' k) as [[Hlt0|Heq]|Hgt0].
      * exact (oversized_not_null rt (draw img) maxSizeKB k' (Hall k' Hlt0) Hnull').
      * subst k'. unfold yields in Hy. congruence.
      * exact (oversized_for_looser_bound_not_fitting rt (draw img) _ _ k b Hle (Hall' k Hgt0) Hy Hfit).
    + exfalso.
      exact (oversized_not_null rt (draw img) maxSizeKB' k (Hall' k Hk) Hnull).
    + destruct (le_lt_dec k' k) as [Hkk|Hkk]; [lia|]. exfalso.
      exact (oversized_not_null rt (draw img) maxSizeKB' k (Hall' k Hkk) Hnull).
    + destruct (le_lt_dec k' k) as [Hkk|Hkk]; [lia|]. exfalso.
      exact (oversized_not_null rt (draw img) maxSizeKB' k (Hall' k Hkk) Hnull).
  - rewrite !Hrej. cbn [fst snd]. split; [lia|]. intros value Hres. discriminate Hres.
Qed.

Lemma looser_bound_stops_no_later_witness :
  (List.length (snd (compressImage (runtime_with proportional) a_file 20 70))
   <= List.length (snd (compressImage (runtime_with proportional) a_file 20 50)))%nat
  /\ (forall value,
         fst (compressImage (runtime_with proportional) a_file 20 50) = Resolved value ->
         exists value',
           fst (compressImage (runtime_with proportional) a_file 20 70) = Resolved value').
Proof.
  apply (looser_bound_stops_no_later (runtime_with proportional) a_file 20 50 70).
  vm_compute. discriminate.
Defined.

(** ** More on the resize step *)

Lemma scale_into_bound (x bound d : Q) :
  0 <= x -> x <= d -> 0 < d -> 0 <= bound ->
  0 <= x * (bound / d) /\ x * (bound / d) <= bound.
Proof.
  intros Hx Hxd Hd Hbound.
  assert (Hne : ~ d == 0).
  { intro Hz. rewrite Hz in Hd. exact (Qlt_irrefl 0 Hd). }
  assert (Heq : x * (bound / d) == bound * (x / d)) by (field; exact Hne).
  assert (Hlow : 0 <= x / d).
  { apply Qle_shift_div_l; [exact Hd|]. rewrite Qmult_0_l. exact Hx. }
  assert (Hhigh : x / d <= 1).
  { apply Qle_shift_div_r; [exact Hd|]. rewrite Qmult_1_l. exact Hxd. }
  rewrite Heq. split.
  - apply Qmult_le_0_compat; assumption.
  - rewrite <- (Qmult_1_r bound) at 2. rewrite !(Qmult_comm bound).
    apply Qmult_le_compat_r; assumption.
Qed.

Lemma floor_in_box (x : Q) : 0 <= x -> x <= 1024 -> (0 <= Qfloor x <= 1024)%Z.
Proof.
  intros Hlow Hhigh. split.
  - rewrite <- (Qfloor_Z 0). apply Qfloor_resp_le. exact Hlow.
  - rewrite <- (Qfloor_Z 1024). apply Qfloor_resp_le. exact Hhigh.
Qed.

Lemma resize_in_box (img : Image) :
  (0 <= fst (resize img) /\ fst (resize img) <= 1024)
  /\ (0 <= snd (resize img) /\ snd (resize img) <= 1024).
Proof.
  unfold resize.
  pose proof (number_of_N_nonneg (img_width img)) as Hw0.
  pose proof (number_of_N_nonneg (img_height img)) as Hh0.
  destruct (gt (number_of_N (img_width img)) (number_of_N (img_height img))) eqn:Hwh.
  - apply gt_true in Hwh.
    destruct (gt (number_of_N (img_width img)) MAX_WIDTH) eqn:Hw; cbn [fst snd].
    + apply gt_true in Hw. split; [split; discriminate|].
      apply scale_into_bound; [exact Hh0 | apply Qlt_le_weak; exact Hwh | | discriminate].
      exact (Qle_lt_trans _ _ _ Hh0 Hwh).
    + apply gt_false in Hw. split; [split; assumption|]. split; [exact Hh0|].
      apply Qlt_le_weak. exact (Qlt_le_trans _ _ _ Hwh Hw).
  - apply gt_false in Hwh.
    destruct (gt (number_of_N (img_height img)) MAX_HEIGHT) eqn:Hh; cbn [fst snd].
    + apply gt_true in Hh. split; [|split; discriminate].
      apply scale_into_bound; [exact Hw0 | exact Hwh | | discriminate].
      apply (Qlt_trans _ MAX_HEIGHT); [reflexivity | exact Hh].
    + apply gt_false in Hh. split; [|split; assumption]. split; [exact Hw0|].
      exact (Qle_trans _ _ _ Hwh Hh).
Qed.

(** X6: whatever the image, the numbers the resize step computes and the
    width and height of the canvas lie between 0 and 1024: the canvas fits
    the 1024 x 1024 box. *)
Theorem canvas_fits_the_box (img : Image) :
  0 <= fst (resize img) /\ fst (resize img) <= MAX_WIDTH
  /\ 0 <= snd (resize img) /\ snd (resize img) <= MAX_HEIGHT
  /\ (0 <= canvas_width (draw img) <= 1024)%Z
  /\ (0 <= canvas_height (draw img) <= 1024)%Z.
Proof.
  destruct (resize_in_box img) as [[Hw0 Hw] [Hh0 Hh]].
  destruct (canvas_of_draw img) as [Hcw Hch]. rewrite Hcw, Hch.
  repeat split; try assumption; apply floor_in_box; assumption.
Qed.

(** X8: an image that exceeds the box in either dimension is scaled so that
    its longer side is exactly 1024, in the computed numbers and on the
    canvas. *)
Theorem longer_side_becomes_1024 (img : Image) :
  (1024 < img_width img \/ 1024 < img_height img)%N ->
  (fst (resize img) = MAX_WIDTH /\ canvas_width (draw img) = 1024%Z
   /\ number_of_N (img_height img) < number_of_N (img_width img))
  \/ (snd (resize img) = MAX_HEIGHT /\ canvas_height (draw img) = 1024%Z
      /\ number_of_N (img_width img) <= number_of_N (img_height img)).
Proof.
  intro Hbig.
  assert (Hbig' : 1024 < number_of_N (img_width img) \/ 1024 < number_of_N (img_height img)).
  { unfold number_of_N. destruct Hbig as [H|H]; [left|right];
      change 1024 with (inject_Z 1024); rewrite <- Zlt_Qlt; lia. }
  destruct (canvas_of_draw img) as [Hcw Hch]. rewrite Hcw, Hch. clear Hcw Hch.
  unfold resize.
  destruct (gt (number_of_N (img_width img)) (number_of_N (img_height img))) eqn:Hwh.
  - apply gt_true in Hwh. left.
    assert (Hw : gt (number_of_N (img_width img)) MAX_WIDTH = true).
    { apply gt_true. destruct Hbig' as [H|H]; [exact H|].
      exact (Qlt_trans _ _ _ H Hwh). }
    rewrite Hw. cbn [fst]. split; [reflexivity|]. split; [reflexivity | exact Hwh].
  - apply gt_false in Hwh. right.
    assert (Hh : gt (number_of_N (img_height img)) MAX_HEIGHT = true).
    { apply gt_true. destruct Hbig' as [H|H]; [|exact H].
      exact (Qlt_le_trans _ _ _ H Hwh). }
    rewrite Hh. cbn [snd]. split; [reflexivity|]. split; [reflexivity | exact Hwh].
Qed.

Lemma longer_side_becomes_1024_witness :
  (fst (resize photo) = MAX_WIDTH /\ canvas_width (draw photo) = 1024%Z
   /\ number_of_N (img_height photo) < number_of_N (img_width photo))
  \/ (snd (resize photo) = MAX_HEIGHT /\ canvas_height (draw photo) = 1024%Z
      /\ number_of_N (img_width photo) <= number_of_N (img_height photo)).
Proof.
  apply (longer_side_becomes_1024 photo). left. vm_compute. reflexivity.
Defined.

Lemma resize_inside_box (img : Image) :
  number_of_N (img_width img) <= 1024 ->
  number_of_N (img_height img) <= 1024 ->
  resize img = (number_of_N (img_width img), number_of_N (img_height img)).
Proof.
  intros Hw Hh. unfold resize.
  assert (Hgw : gt (number_of_N (img_width img)) MAX_WIDTH = false)
    by (apply gt_false; exact Hw).
  assert (Hgh : gt (number_of_N (img_height img)) MAX_HEIGHT = false)
    by (apply gt_false; exact Hh).
  rewrite Hgw, Hgh.
  destruct (gt (number_of_N (img_width img)) (number_of_N (img_height img))); reflexivity.
Qed.

(** X9: resizing is idempotent: an image that has the dimensions of a
    canvas this code produced (as the JPEG encoded from it has) is not
    resized again, and gets a canvas of the same dimensions. *)
Theorem resized_output_is_not_resized_again (img output : Image) :
  img_width output = Z.to_N (canvas_width (draw img)) ->
  img_height output = Z.to_N (canvas_height (draw img)) ->
  resize output = (number_of_N (img_width output), number_of_N (img_height output))
  /\ canvas_width (draw output) = canvas_width (draw img)
  /\ canvas_height (draw output) = canvas_height (draw img).
Proof.
  intros Hw Hh.
  destruct (canvas_of_draw img) as [Hcw Hch].
  destruct (resize_in_box img) as [[Hw0 Hw1] [Hh0 Hh1]].
  pose proof (floor_in_box _ Hw0 Hw1) as Hfw. pose proof (floor_in_box _ Hh0 Hh1) as Hfh.
  rewrite <- Hcw in Hfw. rewrite <- Hch in Hfh.
  assert (Hres : resize output
                 = (number_of_N (img_width output), number_of_N (img_height output))).
  { apply resize_inside_box; unfold number_of_N; change 1024 with (inject_Z 1024);
      rewrite <- Zle_Qle; lia. }
  destruct (canvas_of_draw output) as [Hcw' Hch']. rewrite Hcw', Hch', Hres.
  cbn [fst snd]. unfold number_of_N. rewrite !Qfloor_Z, Hw, Hh.
  repeat split; lia.
Qed.

Lemma resized_output_is_not_resized_again_witness :
  resize (mkImage "" 1024 512) = (1024, 512)
  /\ canvas_width (draw (mkImage "" 1024 512)) = canvas_width (draw photo)
  /\ canvas_height (draw (mkImage "" 1024 512)) = canvas_height (draw photo).
Proof.
  apply (resized_output_is_not_resized_again photo (mkImage "" 1024 512)); reflexivity.
Defined.

Lemma floor_below_one (x : Q) : 0 <= x -> x < 1 -> Qfloor x = 0%Z.
Proof.
  intros Hlow Hhigh.
  assert (H0 : (0 <= Qfloor x)%Z).
  { rewrite <- (Qfloor_Z 0). apply Qfloor_resp_le. exact Hlow. }
  assert (H1 : (Qfloor x < 1)%Z).
  { rewrite Zlt_Qlt. exact (Qle_lt_trans _ _ _ (Qfloor_le x) Hhigh). }
  lia.
Qed.

(** X11: an image more than 1024 times wider than high is scaled to a
    height below one pixel, which the canvas truncates to 0: the canvas the
    encoder gets is empty. *)
Theorem sliver_gets_canvas_of_height_0 (img : Image) :
  (1024 * img_height img < img_width img)%N ->
  snd (resize img) < 1 /\ canvas_height (draw img) = 0%Z.
Proof.
  intro Hsliver.
  assert (Hlt : snd (resize img) < 1).
  { unfold resize.
    assert (Hwh : gt (number_of_N (img_width img)) (number_of_N (img_height img)) = true).
    { apply gt_true. unfold number_of_N. rewrite <- Zlt_Qlt. lia. }
    rewrite Hwh.
    destruct (gt (number_of_N (img_width img)) MAX_WIDTH) eqn:Hw; cbn [snd].
    - apply gt_true in Hw.
      assert (Hpos : 0 < number_of_N (img_width img)).
      { apply (Qlt_trans _ MAX_WIDTH); [reflexivity | exact Hw]. }
      assert (Heq : number_of_N (img_height img) * (MAX_WIDTH / number_of_N (img_width img))
                    == (1024 * number_of_N (img_height img)) / number_of_N (img_width img)).
      { unfold MAX_WIDTH. field. intro Hz. rewrite Hz in Hpos. discriminate Hpos. }
      rewrite Heq. apply Qlt_shift_div_r; [exact Hpos|]. rewrite Qmult_1_l.
      unfold number_of_N. change 1024 with (inject_Z 1024).
      rewrite <- inject_Z_mult, <- Zlt_Qlt. lia.
    - apply gt_false in Hw. unfold number_of_N in *.
      change MAX_WIDTH with (inject_Z 1024) in Hw. rewrite <- Zle_Qle in Hw.
      change 1 with (inject_Z 1). rewrite <- Zlt_Qlt. lia. }
  split; [exact Hlt|].
  destruct (canvas_of_draw img) as [_ Hch]. rewrite Hch.
  apply floor_below_one; [|exact Hlt].
  destruct (resize_in_box img) as [_ [Hh0 _]]. exact Hh0.
Qed.

Lemma sliver_gets_canvas_of_height_0_witness :
  snd (resize sliver) < 1 /\ canvas_height (draw sliver) = 0%Z.
Proof.
  apply (sliver_gets_canvas_of_height_0 sliver). vm_compute. reflexivity.
Defined.

(** * The student form *)

Lemma is_empty_true (s : string) : is_empty s = true <-> s = ""%string.
Proof. destruct s; cbn; split; intro H; congruence. Qed.

Lemma is_empty_false (s : string) : is_empty s = false <-> s <> ""%string.
Proof. destruct s; cbn; split; intro H; congruence. Qed.

Lemma includes_In (l : list string) (s : string) : includes l s = true <-> In s l.
Proof.
  unfold includes. rewrite existsb_exists. split.
  - intros [x [Hin Heq]]. apply String.eqb_eq in Heq. subst x. exact Hin.
  - intro Hin. exists s. split; [exact Hin | apply String.eqb_refl].
Qed.

Lemma clamped_mark_range (parseInt10 : string -> option Z) (value : string) :
  (0 <= clamped_mark parseInt10 value <= 100)%Z.
Proof.
  unfold clamped_mark.
  destruct (parseInt10 value) as [n|]; cbv zeta.
  - destruct (Z.ltb_spec n 0).
    + cbn. lia.
    + rewrite Z.gtb_ltb. destruct (Z.ltb_spec 100 n); lia.
  - cbn. lia.
Qed.

Lemma mark_of_with_mark_same (m : Marks) (name : Subject) (mark : Q) :
  mark_of (with_mark m name mark) name = mark.
Proof. destruct name; reflexivity. Qed.

Lemma mark_of_with_mark_other (m : Marks) (name other : Subject) (mark : Q) :
  other <> name -> mark_of (with_mark m name mark) other = mark_of m other.
Proof. intro Hne. destruct name, other; try reflexivity; congruence. Qed.

(** X12: whatever is typed into a marks input, [handleMarkChange] stores a
    whole number between 0 and 100 for that subject: the parsed number when
    it is in that range, 0 for [NaN] and for negative numbers, 100 for
    larger ones.  It leaves the other subjects and the other fields alone,
    so marks that are all within 0..100 stay so. *)
Theorem handleMarkChange_keeps_marks_in_range
  (parseInt10 : string -> option Z) (name : Subject) (value : string) (prev : Student) :
  mark_of (marks (handleMarkChange parseInt10 name value prev)) name
  = inject_Z (clamped_mark parseInt10 value)
  /\ (0 <= clamped_mark parseInt10 value <= 100)%Z
  /\ (forall n, parseInt10 value = Some n ->
                clamped_mark parseInt10 value
                = if (n <? 0)%Z then 0%Z else if (100 <? n)%Z then 100%Z else n)
  /\ (parseInt10 value = None -> clamped_mark parseInt10 value = 0%Z)
  /\ (forall other, other <> name ->
                    mark_of (marks (handleMarkChange parseInt10 name value prev)) other
                    = mark_of (marks prev) other)
  /\ with_marks (handleMarkChange parseInt10 name value prev) (marks prev) = prev
  /\ ((forall subject, 0 <= mark_of (marks prev) subject
                       /\ mark_of (marks prev) subject <= 100) ->
      forall subject,
        0 <= mark_of (marks (handleMarkChange parseInt10 name value prev)) subject
        /\ mark_of (marks (handleMarkChange parseInt10 name value prev)) subject <= 100).
Proof.
  pose proof (clamped_mark_range parseInt10 value) as Hrange.
  assert (Hsame : mark_of (marks (handleMarkChange parseInt10 name value prev)) name
                  = inject_Z (clamped_mark parseInt10 value)).
  { unfold handleMarkChange. cbn [marks with_marks]. apply mark_of_with_mark_same. }
  assert (Hother : forall other, other <> name ->
                     mark_of (marks (handleMarkChange parseInt10 name value prev)) other
                     = mark_of (marks prev) other).
  { intros other Hne. unfold handleMarkChange. cbn [marks with_marks].
    apply mark_of_with_mark_other. exact Hne. }
  split; [exact Hsame|]. split; [exact Hrange|]. split; [|split; [|split; [|split]]].
  - intros n Hn. unfold clamped_mark. rewrite Hn. cbv zeta.
    destruct (Z.ltb_spec n 0) as [Hneg|Hpos].
    + reflexivity.
    + rewrite Z.gtb_ltb. reflexivity.
  - intro Hnan. unfold clamped_mark. rewrite Hnan. reflexivity.
  - exact Hother.
  - destruct prev. reflexivity.
  - intros Hprev subject.
    assert (Hdec : subject = name \/ subject <> name)
      by (destruct subject, name; (left; reflexivity) || (right; discriminate)).
    destruct Hdec as [Heq|Hne].
    + subst subject. rewrite Hsame. change 0 with (inject_Z 0).
      change 100 with (inject_Z 100). rewrite <- !Zle_Qle. exact Hrange.
    + rewrite (Hother subject Hne). apply Hprev.
Qed.

(** X13: [handleSubmit] calls [onSave], with the student of the form, exactly
    when the roll number, the two names and the date of birth are all
    filled in and, for a new student, the roll number is not among the
    existing ones.  A new student with an existing roll number gets the
    roll-number error even when other fields are missing. *)
Theorem handleSubmit_saves_complete_unique_students
  (studentToEdit : option Student) (existing : list string) (student saved : Student) :
  (handleSubmit studentToEdit existing student = Save saved
   <-> saved = student
       /\ rollNumber student <> ""%string /\ studentName student <> ""%string
       /\ fatherName student <> ""%string /\ dob student <> ""%string
       /\ (studentToEdit = None -> ~ In (rollNumber student) existing))
  /\ (studentToEdit = None -> In (rollNumber student) existing ->
      handleSubmit studentToEdit existing student
      = ShowError "This Roll Number already exists. Please use a unique one.").
Proof.
  unfold handleSubmit. split.
  - split.
    + intro Hsave.
      destruct (match studentToEdit with None => true | Some _ => false end
                && includes existing (rollNumber student)) eqn:Hdup; [discriminate Hsave|].
      destruct (is_empty (rollNumber student)) eqn:H1; [discriminate Hsave|].
      destruct (is_empty (studentName student)) eqn:H2; [discriminate Hsave|].
      destruct (is_empty (fatherName student)) eqn:H3; [discriminate Hsave|].
      destruct (is_empty (dob student)) eqn:H4; [discriminate Hsave|].
      cbn [orb] in Hsave. injection Hsave as Hs.
      apply is_empty_false in H1, H2, H3, H4.
      repeat split; auto.
      intros Hadd Hin. subst studentToEdit. cbn [andb] in Hdup.
      apply includes_In in Hin. congruence.
    + intros [Hs [H1 [H2 [H3 [H4 Huniq]]]]]. subst saved.
      apply is_empty_false in H1, H2, H3, H4. rewrite H1, H2, H3, H4. cbn [orb].
      destruct studentToEdit as [edited|]; cbn [andb]; [reflexivity|].
      destruct (includes existing (rollNumber student)) eqn:Hinc; [|reflexivity].
      exfalso. apply (Huniq eq_refl). apply includes_In. exact Hinc.
  - intros Hadd Hin. subst studentToEdit. apply includes_In in Hin.
    rewrite Hin. reflexivity.
Qed.

(** X14: after [handleImageChange] the form either holds a new photo, the
    data URL of a blob of at most 50 KB that the encoder gave for the
    picked file (shown as preview, with no error), or holds the student
    unchanged, with [err.message] as error and the old photo, if any, as
    preview. *)
Theorem form_photo_is_at_most_50KB (rt : Runtime) (file : File) (st : FormState) :
  (exists img k blob,
      decodes_to rt file img
      /\ (k < 10)%nat
      /\ yields rt (draw img) k blob
      /\ sizeKB_of blob <= 50
      /\ handleImageChange rt (Some file) st
         = mkFormState (with_studentImage (form_student st) (blob_dataURL blob))
                       (Some (blob_dataURL blob)) None false)
  \/ (exists err,
         fst (compressImage rt file 20 50) = Rejected err
         /\ handleImageChange rt (Some file) st
            = mkFormState (form_student st) (or_null (studentImage (form_student st)))
                          (message_of err) false).
Proof.
  unfold handleImageChange.
  destruct (compressImage_cases rt file) as [[img Hdec] | [reason [_ Hrej]]].
  - destruct (compressImage_run rt file img 20 50 Hdec)
      as [Hall | k b Hk Hall Hy Hle | k Hk Hall Hnull]; cbn [fst].
    + right. eexists. split; reflexivity.
    + left. exists img, k, b. repeat split; assumption.
    + right. eexists. split; reflexivity.
  - right. rewrite Hrej. cbn [fst]. exists reason. split; reflexivity.
Qed.

(** X15: a file that does not decode fails silently: the rejection is an
    event, which has no message, so the form shows no error; the student
    is unchanged. *)
Theorem undecodable_file_leaves_no_error
  (rt : Runtime) (file : File) (ev : Event) (st : FormState) :
  decode_fails rt file ev ->
  handleImageChange rt (Some file) st
  = mkFormState (form_student st) (or_null (studentImage (form_student st))) None false.
Proof.
  intro Hfail. unfold handleImageChange, compressImage.
  destruct Hfail as [Hread | [url [Hread Hload]]].
  - rewrite Hread. reflexivity.
  - rewrite Hread, Hload. reflexivity.
Qed.

Lemma undecodable_file_leaves_no_error_witness :
  handleImageChange runtime_without_decoder (Some a_file)
                    (mkFormState asha (Some "preview"%string) None false)
  = mkFormState asha None None false.
Proof.
  apply (undecodable_file_leaves_no_error runtime_without_decoder a_file "error"%string
           (mkFormState asha (Some "preview"%string) None false)).
  right. exists "data:text/plain;base64,aGVsbG8="%string. split; reflexivity.
Defined.

(** * The marksheet *)

Lemma ge_true (x y : Q) : ge x y = true <-> y <= x.
Proof. unfold ge. apply Qle_bool_iff. Qed.

Lemma ge_false (x y : Q) : ge x y = false <-> x < y.
Proof.
  unfold ge. split; intro H.
  - apply Qnot_le_lt. intro Hle. apply Qle_bool_iff in Hle. congruence.
  - destruct (Qle_bool y x) eqn:E; [|reflexivity].
    apply Qle_bool_iff in E. exfalso. exact (Qlt_not_le _ _ H E).
Qed.

Lemma ge_above (p low high : Q) : low <= high -> ge p high = true -> ge p low = true.
Proof.
  intros Hle Hge. apply ge_true. apply ge_true in Hge. exact (Qle_trans _ _ _ Hle Hge).
Qed.

Lemma ge_mono (p p' t : Q) : p <= p' -> ge p t = true -> ge p' t = true.
Proof.
  intros Hle Hge. apply ge_true. apply ge_true in Hge. exact (Qle_trans _ _ _ Hge Hle).
Qed.

(** X16: the result line and the grade agree: [calculateGrade] gives
    "F (Fail)" exactly for percentages below 33, so a marksheet shows PASS
    exactly when its grade is not F. *)
Theorem pass_iff_grade_is_not_fail :
  (forall p, ge p 33 = true <-> calculateGrade p <> "F (Fail)"%string)
  /\ (forall student, isPass student = true <-> grade student <> "F (Fail)"%string).
Proof.
  assert (Hgen : forall p, ge p 33 = true <-> calculateGrade p <> "F (Fail)"%string).
  { intro p. unfold calculateGrade.
    destruct (ge p 90) eqn:H90;
      [split; [discriminate | intros _; apply (ge_above p 33 90); [discriminate | exact H90]]|].
    destruct (ge p 80) eqn:H80;
      [split; [discriminate | intros _; apply (ge_above p 33 80); [discriminate | exact H80]]|].
    destruct (ge p 70) eqn:H70;
      [split; [discriminate | intros _; apply (ge_above p 33 70); [discriminate | exact H70]]|].
    destruct (ge p 60) eqn:H60;
      [split; [discriminate | intros _; apply (ge_above p 33 60); [discriminate | exact H60]]|].
    destruct (ge p 50) eqn:H50;
      [split; [discriminate | intros _; apply (ge_above p 33 50); [discriminate | exact H50]]|].
    destruct (ge p 33) eqn:H33.
    - split; [discriminate | reflexivity].
    - split; [discriminate | intro H; exfalso; apply H; reflexivity]. }
  split; [exact Hgen|]. intro student. apply Hgen.
Qed.

(** The rank of the grade, read off the percentage. *)
Lemma grade_rank_of_percentage (p : Q) :
  grade_rank (calculateGrade p)
  = if ge p 90 then 6%nat else if ge p 80 then 5%nat else if ge p 70 then 4%nat
    else if ge p 60 then 3%nat else if ge p 50 then 2%nat
    else if ge p 33 then 1%nat else 0%nat.
Proof.
  unfold calculateGrade.
  destruct (ge p 90), (ge p 80), (ge p 70), (ge p 60), (ge p 50), (ge p 33); reflexivity.
Qed.

(** X17: [calculateGrade] is monotone: a higher percentage never gets a
    lower grade. *)
Theorem calculateGrade_is_monotone (p p' : Q) :
  p <= p' ->
  (grade_rank (calculateGrade p) <= grade_rank (calculateGrade p'))%nat.
Proof.
  intro Hle. rewrite !grade_rank_of_percentage.
  pose proof (ge_mono p p' 90 Hle) as M90. pose proof (ge_mono p p' 80 Hle) as M80.
  pose proof (ge_mono p p' 70 Hle) as M70. pose proof (ge_mono p p' 60 Hle) as M60.
  pose proof (ge_mono p p' 50 Hle) as M50. pose proof (ge_mono p p' 33 Hle) as M33.
  destruct (ge p 90); [rewrite (M90 eq_refl); lia|].
  destruct (ge p 80);
    [rewrite (M80 eq_refl); destruct (ge p' 90); lia|].
  destruct (ge p 70);
    [rewrite (M70 eq_refl); destruct (ge p' 90), (ge p' 80); lia|].
  destruct (ge p 60);
    [rewrite (M60 eq_refl); destruct (ge p' 90), (ge p' 80), (ge p' 70); lia|].
  destruct (ge p 50);
    [rewrite (M50 eq_refl); destruct (ge p' 90), (ge p' 80), (ge p' 70), (ge p' 60); lia|].
  destruct (ge p 33);
    [rewrite (M33 eq_refl);
     destruct (ge p' 90), (ge p' 80), (ge p' 70), (ge p' 60), (ge p' 50); lia|].
  lia.
Qed.

Lemma calculateGrade_is_monotone_witness :
  (grade_rank (calculateGrade (percentage ravi))
   <= grade_rank (calculateGrade (percentage asha)))%nat.
Proof.
  apply (calculateGrade_is_monotone (percentage ravi) (percentage asha)).
  vm_compute. discriminate.
Defined.

Lemma or_zero_eq (x : Q) : or_zero x == x.
Proof.
  unfold or_zero. destruct (Qeq_bool x 0) eqn:E; [|reflexivity].
  apply Qeq_bool_iff in E. symmetry. exact E.
Qed.

Lemma whole_total (student : Student) (z : Subject -> Z) :
  (forall subject, mark_of (marks student) subject = inject_Z (z subject)) ->
  totalMarks student
  == inject_Z (z hindi + z english + z mathematics + z science
               + z socialScience + z sanskrit).
Proof.
  intro Hz. unfold totalMarks, SUBJECTS. cbn [fold_left].
  rewrite !or_zero_eq, !Hz, !inject_Z_plus. ring.
Qed.

Lemma whole_percentage (student : Student) (total : Z) :
  (0 <= total)%Z ->
  totalMarks student == inject_Z total ->
  percentage student = inject_Z ((100 * total + 3) / 6) / 100.
Proof.
  intros Hpos Htotal. unfold percentage.
  assert (Hx : totalMarks student / maxMarks * 100 == inject_Z total / 6).
  { rewrite Htotal. change maxMarks with 600. generalize (inject_Z total). intro t. field. }
  assert (Hnonneg : lt (totalMarks student / maxMarks * 100) 0 = false).
  { apply lt_false. rewrite Hx. apply Qle_shift_div_l; [reflexivity|].
    rewrite Qmult_0_l. change 0 with (inject_Z 0). rewrite <- Zle_Qle. exact Hpos. }
  unfold toFixed2. rewrite Hnonneg. unfold round_half_up.
  assert (Hfloor : Qfloor (totalMarks student / maxMarks * 100 * 100 + (1 # 2))
                   = ((100 * total + 3) / 6)%Z).
  { rewrite Zdiv_Qdiv. apply Qfloor_comp. rewrite Hx.
    rewrite inject_Z_plus, !inject_Z_mult.
    change (inject_Z 100) with 100. change (inject_Z 3) with 3.
    change (inject_Z 6) with 6. generalize (inject_Z total). intro t. field. }
  rewrite Hfloor. reflexivity.
Qed.

(** X18: with whole-number marks between 0 and 100 in every subject, the
    total lies between 0 and 600, the percentage between 0 and 100, and the
    marksheet shows PASS exactly when the total is at least 198. *)
Theorem whole_marks_pass_from_198 (student : Student) (z : Subject -> Z) :
  (forall subject, mark_of (marks student) subject = inject_Z (z subject)) ->
  (forall subject, 0 <= z subject <= 100)%Z ->
  totalMarks student
  == inject_Z (z hindi + z english + z mathematics + z science
               + z socialScience + z sanskrit)
  /\ 0 <= totalMarks student /\ totalMarks student <= maxMarks
  /\ 0 <= percentage student /\ percentage student <= 100
  /\ (isPass student = true
      <-> (198 <= z hindi + z english + z mathematics + z science
                  + z socialScience + z sanskrit)%Z).
Proof.
  intros Hz Hrange.
  pose proof (whole_total student z Hz) as Htotal.
  pose proof (Hrange hindi) as R1. pose proof (Hrange english) as R2.
  pose proof (Hrange mathematics) as R3. pose proof (Hrange science) as R4.
  pose proof (Hrange socialScience) as R5. pose proof (Hrange sanskrit) as R6.
  set (total := (z hindi + z english + z mathematics + z science
                 + z socialScience + z sanskrit)%Z) in *.
  assert (Hbounds : (0 <= total <= 600)%Z) by (unfold total; lia).
  pose proof (whole_percentage student total (proj1 Hbounds) Htotal) as Hpct.
  assert (Hdiv : (0 <= (100 * total + 3) / 6 <= 10000)%Z).
  { split; [apply Z.div_pos; lia|].
    assert ((100 * total + 3) / 6 < 10001)%Z by (apply Z.div_lt_upper_bound; lia).
    lia. }
  assert (Hq : forall y n : Z, inject_Z n <= inject_Z y / 100 <-> (100 * n <= y)%Z).
  { intros y n. unfold Qle, Qdiv, Qmult, inject_Z. cbn [Qinv Qnum Qden].
    rewrite ?Pos.mul_1_l, ?Z.mul_1_r. lia. }
  assert (Hq' : forall y n : Z, inject_Z y / 100 <= inject_Z n <-> (y <= 100 * n)%Z).
  { intros y n. unfold Qle, Qdiv, Qmult, inject_Z. cbn [Qinv Qnum Qden].
    rewrite ?Pos.mul_1_l, ?Z.mul_1_r. lia. }
  split; [exact Htotal|].
  split; [rewrite Htotal; change 0 with (inject_Z 0); rewrite <- Zle_Qle; lia|].
  split; [rewrite Htotal; change maxMarks with (inject_Z 600); rewrite <- Zle_Qle; lia|].
  split; [rewrite Hpct; change 0 with (inject_Z 0); apply Hq; lia|].
  split; [rewrite Hpct; change 100 with (inject_Z 100) at 2; apply Hq'; lia|].
  unfold isPass. rewrite ge_true, Hpct. change 33 with (inject_Z 33).
  rewrite Hq. split; intro H.
  - destruct (Z_lt_le_dec total 198) as [Hlt|Hge]; [|exact Hge]. exfalso.
    assert ((100 * total + 3) / 6 < 3300)%Z by (apply Z.div_lt_upper_bound; lia).
    lia.
  - apply Z.div_le_lower_bound; lia.
Qed.

Lemma whole_marks_pass_from_198_witness :
  isPass asha = true
  <-> (198 <= 78 + 82 + 91 + 67 + 74 + 88)%Z.
Proof.
  apply (whole_marks_pass_from_198 asha (fun subject => Qfloor (mark_of (marks asha) subject))).
  - intro subject. destruct subject; reflexivity.
  - intro subject. destruct subject; vm_compute; split; discriminate.
Defined.

(** * The teacher dashboard *)

Lemma lookup_assign_same (key : string) (student : Student) (m : Students) :
  lookup key (assign key student m) = Some student.
Proof.
  induction m as [|[k v] rest IH]; cbn [assign lookup].
  - rewrite String.eqb_refl. reflexivity.
  - destruct (String.eqb key k) eqn:E; cbn [lookup]; rewrite E; [reflexivity | exact IH].
Qed.

Lemma lookup_assign_other (key other : string) (student : Student) (m : Students) :
  other <> key -> lookup other (assign key student m) = lookup other m.
Proof.
  intro Hne. induction m as [|[k v] rest IH]; cbn [assign lookup].
  - apply String.eqb_neq in Hne. rewrite Hne. reflexivity.
  - destruct (String.eqb key k) eqn:E; cbn [lookup].
    + apply String.eqb_eq in E. subst k.
      apply String.eqb_neq in Hne. rewrite Hne. reflexivity.
    + rewrite IH. reflexivity.
Qed.

Lemma lookup_in_keys (key : string) (m : Students) (student : Student) :
  lookup key m = Some student -> In key (keys m).
Proof.
  induction m as [|[k v] rest IH]; cbn [lookup keys map fst]; [discriminate|].
  destruct (String.eqb key k) eqn:E.
  - intros _. left. apply String.eqb_eq in E. congruence.
  - intro H. right. apply IH. exact H.
Qed.

Lemma lookup_delete_same (key : string) (m : Students) :
  lookup key (delete_key key m) = None.
Proof.
  induction m as [|[k v] rest IH]; cbn [delete_key lookup]; [reflexivity|].
  destruct (String.eqb key k) eqn:E; [exact IH|]. cbn [lookup]. rewrite E. exact IH.
Qed.

Lemma lookup_delete_other (key other : string) (m : Students) :
  other <> key -> lookup other (delete_key key m) = lookup other m.
Proof.
  intro Hne. induction m as [|[k v] rest IH]; cbn [delete_key lookup]; [reflexivity|].
  destruct (String.eqb key k) eqn:E.
  - apply String.eqb_eq in E. subst k. apply String.eqb_neq in Hne. rewrite Hne. exact IH.
  - cbn [lookup]. rewrite IH. reflexivity.
Qed.

Lemma handleSubmit_saved (studentToEdit : option Student) (existing : list string)
  (student saved : Student) :
  handleSubmit studentToEdit existing student = Save saved ->
  saved = student
  /\ (studentToEdit = None -> includes existing (rollNumber student) = false).
Proof.
  unfold handleSubmit. intro Hsave.
  destruct studentToEdit as [edited|]; cbn [andb] in Hsave.
  - destruct (is_empty (rollNumber student) || is_empty (studentName student)
              || is_empty (fatherName student) || is_empty (dob student));
      [discriminate Hsave|]. split; [congruence | discriminate].
  - destruct (includes existing (rollNumber student)); [discriminate Hsave|].
    destruct (is_empty (rollNumber student) || is_empty (studentName student)
              || is_empty (fatherName student) || is_empty (dob student));
      [discriminate Hsave|]. split; [congruence | reflexivity].
Qed.

Lemma existing_of_new_student (m : Students) :
  existingRollNumbers m None = keys m.
Proof.
  unfold existingRollNumbers. cbn [differs_from_edited].
  induction (keys m) as [|k rest IH]; cbn [filter]; [reflexivity|]. rewrite IH. reflexivity.
Qed.

(** X19: a student saved through the form never replaces another student:
    when the submission is accepted (and, when editing, the roll number is
    the edited student's, as the disabled input keeps it), the saved
    student is stored under its roll number, every other stored student is
    still stored unchanged, no other roll number appears, the form is
    closed, and the audit log has one more entry, which names the roll
    number. *)
Theorem form_save_keeps_the_other_students
  (now : string) (username : option string) (student : Student) (d d' : Dashboard) :
  submit_form now username student d = inr d' ->
  (forall edited, studentToEdit d = Some edited ->
                  rollNumber student = rollNumber edited) ->
  lookup (rollNumber student) (students d') = Some student
  /\ (forall roll other,
         lookup roll (students d) = Some other ->
         (forall edited, studentToEdit d = Some edited -> roll <> rollNumber edited) ->
         lookup roll (students d') = Some other)
  /\ (forall roll,
         lookup roll (students d) = None -> roll <> rollNumber student ->
         lookup roll (students d') = None)
  /\ isFormOpen d' = false
  /\ studentToEdit d' = None
  /\ exists entry,
       auditLog d' = entry :: auditLog d
       /\ occurs_in (rollNumber student) (action entry).
Proof.
  unfold submit_form. intros Hsubmit Hedit.
  destruct (handleSubmit (studentToEdit d)
              (existingRollNumbers (students d) (studentToEdit d)) student)
    as [message|saved] eqn:Hhandled; [discriminate Hsubmit|].
  injection Hsubmit as Hd'. subst d'.
  destruct (handleSubmit_saved _ _ _ _ Hhandled) as [Hsaved Hunique]. subst saved.
  unfold handleSaveStudent. cbn [students isFormOpen studentToEdit auditLog].
  split; [apply lookup_assign_same|]. split; [|split; [|split; [|split]]].
  - intros roll other Hstored Hnot_edited.
    rewrite lookup_assign_other; [exact Hstored|].
    intro Heq. subst roll.
    destruct (studentToEdit d) as [edited|] eqn:Hmode.
    + exact (Hnot_edited edited eq_refl (Hedit edited eq_refl)).
    + specialize (Hunique eq_refl). rewrite existing_of_new_student in Hunique.
      apply lookup_in_keys in Hstored. apply includes_In in Hstored. congruence.
  - intros roll Hnone Hne. rewrite lookup_assign_other; assumption.
  - reflexivity.
  - reflexivity.
  - unfold addAuditLog. eexists. split; [reflexivity|]. cbn [action].
    destruct (studentToEdit d).
    + exists "Updated student: "%string, ""%string.
      clear. generalize (rollNumber student). intro s.
      f_equal. induction s as [|c s IH]; [reflexivity|]. cbn [String.append]. rewrite <- IH.
      reflexivity.
    + exists "Added new student: "%string, ""%string.
      clear. generalize (rollNumber student). intro s.
      f_equal. induction s as [|c s IH]; [reflexivity|]. cbn [String.append]. rewrite <- IH.
      reflexivity.
Qed.

Lemma form_save_keeps_the_other_students_witness :
  lookup "100103" (students (handleSaveStudent "2024-05-01T10:00:00.000Z" (Some "teacher1"%string)
                               (mkStudent "100103" "Meena Joshi" "Anil Joshi" "2011-01-15" ""
                                          (mkMarks 90 91 92 93 94 95))
                               (mkDashboard class_of_two [] true None)))
  = Some (mkStudent "100103" "Meena Joshi" "Anil Joshi" "2011-01-15" ""
                    (mkMarks 90 91 92 93 94 95))
  /\ lookup "100101" (students (handleSaveStudent "2024-05-01T10:00:00.000Z"
                                  (Some "teacher1"%string)
                                  (mkStudent "100103" "Meena Joshi" "Anil Joshi" "2011-01-15" ""
                                             (mkMarks 90 91 92 93 94 95))
                                  (mkDashboard class_of_two [] true None)))
     = Some asha.
Proof.
  destruct (form_save_keeps_the_other_students
              "2024-05-01T10:00:00.000Z" (Some "teacher1"%string)
              (mkStudent "100103" "Meena Joshi" "Anil Joshi" "2011-01-15" ""
                         (mkMarks 90 91 92 93 94 95))
              (mkDashboard class_of_two [] true None)
              (handleSaveStudent "2024-05-01T10:00:00.000Z" (Some "teacher1"%string)
                 (mkStudent "100103" "Meena Joshi" "Anil Joshi" "2011-01-15" ""
                            (mkMarks 90 91 92 93 94 95))
                 (mkDashboard class_of_two [] true None))
              eq_refl
              ltac:(intros edited Hedited; discriminate Hedited))
    as [Hnew [Hold _]].
  split; [exact Hnew|].
  apply (Hold "100101"%string asha eq_refl).
  intros edited Hedited. discriminate Hedited.
Defined.

(** X20: a new student whose roll number is already stored is refused with
    the roll-number error, whatever else the form holds, and nothing is
    saved. *)
Theorem duplicate_roll_number_is_refused
  (now : string) (username : option string) (student other : Student) (d : Dashboard) :
  studentToEdit d = None ->
  lookup (rollNumber student) (students d) = Some other ->
  submit_form now username student d
  = inl "This Roll Number already exists. Please use a unique one."%string.
Proof.
  intros Hadd Hstored. unfold submit_form, handleSubmit. rewrite Hadd.
  rewrite existing_of_new_student.
  apply lookup_in_keys in Hstored. apply includes_In in Hstored. rewrite Hstored.
  reflexivity.
Qed.

Lemma duplicate_roll_number_is_refused_witness :
  submit_form "2024-05-01T10:00:00.000Z" None
              (mkStudent "100102" "" "" "" "" (mkMarks 0 0 0 0 0 0))
              (mkDashboard class_of_two [] true None)
  = inl "This Roll Number already exists. Please use a unique one."%string.
Proof.
  apply (duplicate_roll_number_is_refused
           "2024-05-01T10:00:00.000Z" None
           (mkStudent "100102" "" "" "" "" (mkMarks 0 0 0 0 0 0)) ravi
           (mkDashboard class_of_two [] true None));
    reflexivity.
Defined.

(** X21: a confirmed deletion removes the record of that roll number and
    no other, and logs one entry; a declined one changes nothing, not even
    the log. *)
Theorem handleDeleteStudent_removes_one_record
  (now : string) (username : option string) (roll : string) (d : Dashboard) :
  lookup roll (students (handleDeleteStudent now username true roll d)) = None
  /\ (forall other, other <> roll ->
                    lookup other (students (handleDeleteStudent now username true roll d))
                    = lookup other (students d))
  /\ List.length (auditLog (handleDeleteStudent now username true roll d))
     = S (List.length (auditLog d))
  /\ handleDeleteStudent now username false roll d = d.
Proof.
  unfold handleDeleteStudent. cbn [students auditLog].
  split; [apply lookup_delete_same|]. split; [|split; reflexivity].
  intros other Hne. apply lookup_delete_other. exact Hne.
Qed.

(** * The captcha *)

(** X22: for results of [Math.random()] (numbers from 0 up to, not
    including, 1) both numbers of the captcha are between 1 and 10 and the
    answer, their sum, is between 2 and 20. *)
Theorem captcha_numbers_are_1_to_10 (random1 random2 : Q) :
  0 <= random1 -> random1 < 1 -> 0 <= random2 -> random2 < 1 ->
  (1 <= num1 (generateCaptcha random1 random2) <= 10)%Z
  /\ (1 <= num2 (generateCaptcha random1 random2) <= 10)%Z
  /\ answer (generateCaptcha random1 random2)
     = (num1 (generateCaptcha random1 random2) + num2 (generateCaptcha random1 random2))%Z
  /\ (2 <= answer (generateCaptcha random1 random2) <= 20)%Z.
Proof.
  assert (Hnum : forall random, 0 <= random -> random < 1 ->
                                (1 <= captcha_number random <= 10)%Z).
  { intros random Hlow Hhigh. unfold captcha_number.
    assert (H0 : (0 <= Qfloor (random * 10))%Z).
    { rewrite <- (Qfloor_Z 0). apply Qfloor_resp_le.
      apply Qmult_le_0_compat; [exact Hlow | discriminate]. }
    assert (H1 : (Qfloor (random * 10) < 10)%Z).
    { rewrite Zlt_Qlt. apply (Qle_lt_trans _ _ _ (Qfloor_le (random * 10))).
      change (inject_Z 10) with (1 * 10). apply Qmult_lt_compat_r; [reflexivity | exact Hhigh]. }
    lia. }
  intros H1 H2 H3 H4.
  pose proof (Hnum random1 H1 H2) as Hn1. pose proof (Hnum random2 H3 H4) as Hn2.
  unfold generateCaptcha. cbn [num1 num2 answer].
  repeat split; lia.
Qed.

Lemma captcha_numbers_are_1_to_10_witness :
  (1 <= num1 (generateCaptcha 0.35 0.99) <= 10)%Z
  /\ (1 <= num2 (generateCaptcha 0.35 0.99) <= 10)%Z
  /\ answer (generateCaptcha 0.35 0.99)
     = (num1 (generateCaptcha 0.35 0.99) + num2 (generateCaptcha 0.35 0.99))%Z
  /\ (2 <= answer (generateCaptcha 0.35 0.99) <= 20)%Z.
Proof.
  apply (captcha_numbers_are_1_to_10 0.35 0.99); vm_compute; (discriminate || reflexivity).
Defined.
